(** * Cementra: the mock plant API of [backend/app.py]

    A shallow embedding of the Flask application: the process-wide
    [PlantDataStore], the request handlers, and the Python run-time pieces
    they rely on (dicts and lists held in a heap, the [random] module, the
    wall clock, binary64 arithmetic).

    - Python objects are values of [pyval]; the mutable objects owned by the
      store live in a heap ([gmap loc pyval]) and are reached through their
      location, so that [dict.copy()] and item assignment act on the object
      they act on in Python.
    - [random] is an oracle of outcomes: the i-th call of [_randbelow] or
      [random()] takes its result from [rand w i]; the bits the Mersenne
      Twister spends on a call are not modelled.
    - [datetime.now()] reads the next value of the clock oracle.
    - A Python float is the rational it denotes; every float operation rounds
      its exact result to binary64 with [Float64.fl] (round to nearest, ties
      to even, 53-bit significand; the exponent range is not bounded, all
      values handled here are far from overflow and underflow). *)

From Stdlib Require Import ZArith QArith Qround Qpower Lia Lqa.
From Stdlib Require Import DecimalString.
From stdpp Require Import base gmap strings list.

(** ** Binary64 rounding on rationals *)

Module Float64.
Local Open Scope Q_scope.

Definition pow2 (e : Z) : Q := Qpower 2 e.

(** [ilog2 x] is the binary exponent of a positive rational:
    [2^(ilog2 x) <= x < 2^(ilog2 x + 1)]. *)
Definition ilog2 (x : Q) : Z :=
  let a := (Z.log2 (Qnum x) - Z.log2 (Zpos (Qden x)))%Z in
  if Qle_bool (pow2 a) x then a else (a - 1)%Z.

(** Round to the nearest integer, ties to even. *)
Definition rne (x : Q) : Z :=
  let f := Qfloor x in
  match Qcompare (x - inject_Z f) (1 # 2) with
  | Lt => f
  | Gt => (f + 1)%Z
  | Eq => if Z.even f then f else (f + 1)%Z
  end.

(** Round to the nearest multiple of [2^e]. *)
Definition round_grid (e : Z) (x : Q) : Q :=
  inject_Z (rne (x / pow2 e)) * pow2 e.

Definition flpos (x : Q) : Q := round_grid (ilog2 x - 52) x.

(** The binary64 value nearest to [x]. *)
Definition fl (x : Q) : Q :=
  Qred match Qcompare x 0 with
       | Eq => 0
       | Gt => flpos x
       | Lt => - flpos (- x)
       end.

(** [float(n)] for a Python int. *)
Definition of_int (n : Z) : Q := fl (inject_Z n).

(** A decimal literal [n / 10^k] of the source text. *)
Definition lit (n : Z) (k : positive) : Q := fl (n # (10 ^ k)%positive).

(** [round(x, 1)] on a float: the exact value is rounded to one decimal
    (ties to even) and the decimal converted back to the nearest float. *)
Definition round1 (x : Q) : Q := fl (inject_Z (rne (x * 10)) / 10).

End Float64.

(** ** Python values *)

Definition loc := positive.

(** [datetime]: a naive date and time, as the count of microseconds since
    the midnight that starts day 0 of the proleptic Gregorian calendar
    (day 1 is 0001-01-01, as for Python's [toordinal()]). *)
Record datetime := Datetime { dt_us : Z }.

#[warnings="-register-all"]
Inductive pyval :=
| PNone
| PBool (b : bool)
| PInt (n : Z)
| PFloat (q : Q)
| PStr (s : string)
| PDatetime (d : datetime)
| PList (l : list pyval)
| PDict (d : list (string * pyval)).

Inductive exn :=
| KeyError | TypeError | AttributeError | IndexError | ValueError
| ZeroDivisionError | FileNotFoundError | OSError
| BadRequest | UnsupportedMediaType.

Inductive result (A : Type) :=
| Ok (a : A)
| Raise (e : exn).
Arguments Ok {A} a.
Arguments Raise {A} e.

(** *** Dicts (insertion-ordered, keys unique) *)

Fixpoint dict_get (k : string) (d : list (string * pyval)) : option pyval :=
  match d with
  | [] => None
  | (k', v) :: d' => if String.eqb k k' then Some v else dict_get k d'
  end.

Fixpoint dict_set (k : string) (v : pyval) (d : list (string * pyval))
  : list (string * pyval) :=
  match d with
  | [] => [(k, v)]
  | (k', v') :: d' =>
      if String.eqb k k' then (k, v) :: d' else (k', v') :: dict_set k v d'
  end.

(** [o[k]] *)
Definition getitem (o : pyval) (k : string) : result pyval :=
  match o with
  | PDict d => match dict_get k d with Some v => Ok v | None => Raise KeyError end
  | _ => Raise TypeError
  end.

(** [o.get(k, dflt)]: only a dict has the method. *)
Definition py_get (o : pyval) (k : string) (dflt : pyval) : result pyval :=
  match o with
  | PDict d => Ok (default dflt (dict_get k d))
  | _ => Raise AttributeError
  end.

(** [len(o)] *)
Definition py_len (o : pyval) : result Z :=
  match o with
  | PList l => Ok (Z.of_nat (length l))
  | PDict d => Ok (Z.of_nat (length d))
  | PStr s => Ok (Z.of_nat (String.length s))
  | _ => Raise TypeError
  end.

(** [o[:n]] *)
Definition py_slice_to (n : nat) (o : pyval) : result pyval :=
  match o with
  | PList l => Ok (PList (take n l))
  | PStr s => Ok (PStr (String.substring 0 n s))
  | _ => Raise TypeError
  end.

(** *** Truth value, comparison with a str literal *)

Definition py_truthy (v : pyval) : bool :=
  match v with
  | PNone => false
  | PBool b => b
  | PInt n => negb (n =? 0)%Z
  | PFloat q => negb (Qeq_bool q 0)
  | PStr s => negb (String.eqb s "")
  | PDatetime _ => true
  | PList l => match l with [] => false | _ => true end
  | PDict d => match d with [] => false | _ => true end
  end.

(** [v == 's'] for a str literal: only an equal str compares equal. *)
Definition py_eq_str (v : pyval) (s : string) : bool :=
  match v with
  | PStr t => String.eqb t s
  | _ => false
  end.

(** [v in [s1, ..., sn]] for a list of str literals. *)
Definition py_in_strs (v : pyval) (ss : list string) : bool :=
  existsb (py_eq_str v) ss.

(** *** Arithmetic on the numeric tower (bool, int, float) *)

Definition as_int (v : pyval) : option Z :=
  match v with
  | PInt n => Some n
  | PBool b => Some (Z.b2z b)
  | _ => None
  end.

Definition as_float (v : pyval) : option Q :=
  match v with
  | PFloat q => Some q
  | _ => Float64.of_int <$> as_int v
  end.

Definition py_arith (fz : Z -> Z -> Z) (fq : Q -> Q -> Q) (a b : pyval)
  : result pyval :=
  match as_int a, as_int b with
  | Some x, Some y => Ok (PInt (fz x y))
  | _, _ =>
      match as_float a, as_float b with
      | Some x, Some y => Ok (PFloat (Float64.fl (fq x y)))
      | _, _ => Raise TypeError
      end
  end.

Definition py_add (a b : pyval) : result pyval :=
  match a, b with
  | PStr s, PStr t => Ok (PStr (s +:+ t))
  | PList l, PList m => Ok (PList (l ++ m))
  | _, _ => py_arith Z.add Qplus a b
  end.

Definition py_sub (a b : pyval) : result pyval := py_arith Z.sub Qminus a b.

(** [a * b] on numbers (sequence repetition is not used by the program). *)
Definition py_mul (a b : pyval) : result pyval := py_arith Z.mul Qmult a b.

(** [a / b]: true division, correctly rounded also on two ints. *)
Definition py_truediv (a b : pyval) : result pyval :=
  match as_int a, as_int b with
  | Some x, Some y =>
      if (y =? 0)%Z then Raise ZeroDivisionError
      else Ok (PFloat (Float64.fl (inject_Z x / inject_Z y)))
  | _, _ =>
      match as_float a, as_float b with
      | Some x, Some y =>
          if Qeq_bool y 0 then Raise ZeroDivisionError
          else Ok (PFloat (Float64.fl (x / y)))
      | _, _ => Raise TypeError
      end
  end.

(** [round(v, 1)] *)
Definition py_round1 (v : pyval) : result pyval :=
  match v with
  | PFloat q => Ok (PFloat (Float64.round1 q))
  | _ => match as_int v with Some n => Ok (PInt n) | None => Raise TypeError end
  end.

(** *** Text *)

(** [str(n)] for an int. *)
Definition str_int (n : Z) : string := NilZero.string_of_int (Z.to_int n).

Fixpoint zeros (n : nat) : string :=
  match n with O => "" | S n' => "0" +:+ zeros n' end.

(** ['%0wd' % n] for [n >= 0]. *)
Definition zpad (w : nat) (n : Z) : string :=
  let s := str_int n in zeros (w - String.length s) +:+ s.

Fixpoint is_infix_at (s t : string) : bool :=
  String.prefix s t
  || match t with
     | EmptyString => false
     | String _ t' => is_infix_at s t'
     end.

(** [s in t] on strs. *)
Definition contains (t s : string) : bool := is_infix_at s t.

(** ** Dates and times *)

Definition us_per_day : Z := 86400000000.
Definition us_per_hour : Z := 3600000000.

Definition toordinal (d : datetime) : Z := dt_us d / us_per_day.
Definition hour (d : datetime) : Z := (dt_us d mod us_per_day) / us_per_hour.
Definition minute (d : datetime) : Z := (dt_us d / 60000000) mod 60.
Definition second (d : datetime) : Z := (dt_us d / 1000000) mod 60.
Definition microsecond (d : datetime) : Z := dt_us d mod 1000000.

(** [timedelta(days=.., hours=..)], in microseconds. *)
Definition timedelta (days hours : Z) : Z := days * us_per_day + hours * us_per_hour.

(** [d - td] *)
Definition dt_sub (d : datetime) (td : Z) : datetime := Datetime (dt_us d - td).

Definition days_in_month (m : Z) : Z :=
  match m with
  | 1 => 31 | 2 => 28 | 3 => 31 | 4 => 30 | 5 => 31 | 6 => 30
  | 7 => 31 | 8 => 31 | 9 => 30 | 10 => 31 | 11 => 30 | 12 => 31
  | _ => -1
  end%Z.

Definition days_before_month (m : Z) : Z :=
  match m with
  | 1 => 0 | 2 => 31 | 3 => 59 | 4 => 90 | 5 => 120 | 6 => 151
  | 7 => 181 | 8 => 212 | 9 => 243 | 10 => 273 | 11 => 304 | 12 => 334
  | _ => -1
  end%Z.

(** Year, month and day of a proleptic Gregorian ordinal, by the algorithm of
    the [datetime] module. *)
Definition ord2ymd (n : Z) : Z * Z * Z :=
  let n := (n - 1)%Z in
  let n400 := (n / 146097)%Z in
  let n := (n mod 146097)%Z in
  let year := (n400 * 400 + 1)%Z in
  let n100 := (n / 36524)%Z in
  let n := (n mod 36524)%Z in
  let n4 := (n / 1461)%Z in
  let n := (n mod 1461)%Z in
  let n1 := (n / 365)%Z in
  let n := (n mod 365)%Z in
  let year := (year + n100 * 100 + n4 * 4 + n1)%Z in
  if (n1 =? 4)%Z || (n100 =? 4)%Z then ((year - 1)%Z, 12%Z, 31%Z)
  else
    let leapyear := (n1 =? 3)%Z && (negb (n4 =? 24)%Z || (n100 =? 3)%Z) in
    let month := Z.shiftr (n + 50) 5 in
    let preceding :=
      (days_before_month month + Z.b2z ((2 <? month)%Z && leapyear))%Z in
    if (n <? preceding)%Z then
      let month := (month - 1)%Z in
      let preceding :=
        (preceding - (days_in_month month + Z.b2z ((month =? 2)%Z && leapyear)))%Z in
      (year, month, (n - preceding + 1)%Z)
    else (year, month, (n - preceding + 1)%Z).

(** [d.isoformat()] *)
Definition isoformat (d : datetime) : string :=
  let '(y, m, dd) := ord2ymd (toordinal d) in
  zpad 4 y +:+ "-" +:+ zpad 2 m +:+ "-" +:+ zpad 2 dd +:+ "T"
  +:+ zpad 2 (hour d) +:+ ":" +:+ zpad 2 (minute d) +:+ ":" +:+ zpad 2 (second d)
  +:+ (if (microsecond d =? 0)%Z then "" else "." +:+ zpad 6 (microsecond d)).

(** [d.strftime('%Y%m%d_%H%M%S')] *)
Definition strftime_Ymd_HMS (d : datetime) : string :=
  let '(y, m, dd) := ord2ymd (toordinal d) in
  zpad 4 y +:+ zpad 2 m +:+ zpad 2 dd +:+ "_"
  +:+ zpad 2 (hour d) +:+ zpad 2 (minute d) +:+ zpad 2 (second d).

(** [d.strftime('%H:%M')] *)
Definition strftime_HM (d : datetime) : string :=
  zpad 2 (hour d) +:+ ":" +:+ zpad 2 (minute d).

(** ** The process state and the monad of effects *)

Inductive file_state :=
| FileMissing
| FileContents (s : string)
| FileError (e : exn).

Record world := World {
  heap : gmap loc pyval;          (* the mutable objects, by identity *)
  rand : nat -> N;                (* the shared generator: one value per call
                                     of [_randbelow] or [random()] *)
  rand_pos : nat;                 (* calls made so far *)
  clock : nat -> datetime;        (* successive readings of the wall clock *)
  clock_pos : nat;                (* readings made so far *)
  frontend_index : file_state     (* frontend/index.html *)
}.

Definition M (A : Type) : Type := world -> result A * world.

Definition ret {A} (a : A) : M A := fun w => (Ok a, w).

Definition raise {A} (e : exn) : M A := fun w => (Raise e, w).

Definition bind {A B} (m : M A) (k : A -> M B) : M B :=
  fun w =>
    match m w with
    | (Ok a, w') => k a w'
    | (Raise e, w') => (Raise e, w')
    end.

Definition lift {A} (r : result A) : M A := fun w => (r, w).

Definition rbind {A B} (r : result A) (k : A -> result B) : result B :=
  match r with
  | Ok a => k a
  | Raise e => Raise e
  end.

Notation "x <- m ;; k" := (bind m (fun x => k))
  (at level 100, m at next level, k at level 200, right associativity).
Notation "m ;;; k" := (bind m (fun _ => k))
  (at level 100, k at level 200, right associativity).

Fixpoint mapM {A B} (f : A -> M B) (l : list A) : M (list B) :=
  match l with
  | [] => ret []
  | x :: l' => y <- f x ;; ys <- mapM f l' ;; ret (y :: ys)
  end.

Definition set_heap (h : gmap loc pyval) (w : world) : world :=
  World h (rand w) (rand_pos w) (clock w) (clock_pos w) (frontend_index w).

(** A new object: its identity is one no live object has. *)
Definition alloc (v : pyval) : M loc :=
  fun w =>
    let l := fresh (dom (heap w)) in
    (Ok l, set_heap (<[l := v]> (heap w)) w).

(** Reading the object behind a reference (a live reference always has
    one; the failing branch is there to keep the function total). *)
Definition load (l : loc) : M pyval :=
  fun w =>
    match heap w !! l with
    | Some v => (Ok v, w)
    | None => (Raise ValueError, w)
    end.

Definition store (l : loc) (v : pyval) : M unit :=
  fun w => (Ok tt, set_heap (<[l := v]> (heap w)) w).

Definition tick_clock (w : world) : world :=
  World (heap w) (rand w) (rand_pos w) (clock w) (S (clock_pos w))
        (frontend_index w).

Definition tick_rand (w : world) : world :=
  World (heap w) (rand w) (S (rand_pos w)) (clock w) (clock_pos w)
        (frontend_index w).

(** [datetime.now()] *)
Definition now : M datetime :=
  fun w => (Ok (clock w (clock_pos w)), tick_clock w).

(** The next raw draw of the generator. *)
Definition next_raw : M N :=
  fun w => (Ok (rand w (rand_pos w)), tick_rand w).

(** *** The [random] module *)

(** [_randbelow(n)]: a value in [[0, n)]. The generator is an oracle of
    outcomes: it supplies one value per call, and the call returns it reduced
    into [[0, n)], so that every value of [[0, n)] can be returned and no
    other. CPython makes the value by drawing [n.bit_length()] bits and
    drawing again while the result is not below [n]; which bits of the
    Mersenne Twister lead to which outcome, and how many of them a call
    uses, is not part of this model. *)
Definition randbelow (n : Z) : M Z :=
  r <- next_raw ;; ret (Z.of_N r mod n)%Z.

(** [random.randint(a, b)] *)
Definition random_randint (a b : Z) : M Z :=
  if (b <? a)%Z then raise ValueError
  else k <- randbelow (b - a + 1) ;; ret (a + k)%Z.

(** [random.choice(seq)] *)
Definition random_choice {A} (seq : list A) : M A :=
  match seq with
  | [] => raise IndexError
  | x :: _ => k <- randbelow (Z.of_nat (length seq)) ;; ret (nth (Z.to_nat k) seq x)
  end.

(** The float [random.random()] makes of a raw draw: a multiple of [2^-53]
    in [[0, 1)]. *)
Definition unit_float (r : N) : Q := Qred (Z.of_N (r mod 2 ^ 53) # 2 ^ 53).

(** [random.random()] *)
Definition random_random : M Q :=
  r <- next_raw ;; ret (unit_float r).

(** [random.uniform(a, b)], that is [a + (b - a) * self.random()]. *)
Definition random_uniform (a b : pyval) : M pyval :=
  d <- lift (py_sub b a) ;;
  r <- random_random ;;
  p <- lift (py_mul d (PFloat r)) ;;
  lift (py_add a p).

(** *** Operations on heap objects *)

(** [o.copy()]: a new object with the same items. *)
Definition py_copy (l : loc) : M loc :=
  o <- load l ;;
  match o with
  | PDict d => alloc (PDict d)
  | PList xs => alloc (PList xs)
  | _ => raise AttributeError
  end.

(** [o[k] = v] on the dict at [l]. *)
Definition setitem (l : loc) (k : string) (v : pyval) : M unit :=
  o <- load l ;;
  match o with
  | PDict d => store l (PDict (dict_set k v d))
  | _ => raise TypeError
  end.

(** [o[k] += e]: the item is read, then [e] is evaluated, then the sum is
    stored back in the same object. *)
Definition iadd_item (l : loc) (k : string) (e : M pyval) : M unit :=
  o <- load l ;;
  old <- lift (getitem o k) ;;
  d <- e ;;
  new <- lift (py_add old d) ;;
  setitem l k new.


(** [for x in o]: the items a [for] or a comprehension runs over. *)
Definition py_iter (o : pyval) : result (list pyval) :=
  match o with
  | PList l => Ok l
  | PDict d => Ok (map (fun kv => PStr (fst kv)) d)
  | PStr t => Ok (map (fun c => PStr (String c "")) (String.list_ascii_of_string t))
  | _ => Raise TypeError
  end.

Fixpoint filterR (p : pyval -> result bool) (l : list pyval) : result (list pyval) :=
  match l with
  | [] => Ok []
  | x :: l' =>
      rbind (p x) (fun b =>
      rbind (filterR p l') (fun r => Ok (if b then x :: r else r)))
  end.

(** [len([x for x in o if p x])] *)
Definition count_comp (p : pyval -> result bool) (o : pyval) : result Z :=
  rbind (py_iter o) (fun l =>
  rbind (filterR p l) (fun r => Ok (Z.of_nat (length r)))).

(** ** [class PlantDataStore] *)

Record PlantDataStore := {
  workers : loc;
  safety_violations : loc;
  production_metrics : loc;
  schedules : loc
}.

Definition statuses : list string :=
  ["Safe"; "PPE Missing"; "Training Required"; "Off Duty"].

Definition zones : list string := ["Zone A"; "Zone B"; "Zone C"; "Zone D"].

(** The body of the loop of [generate_mock_workers], for one [i]. *)
Definition generate_worker (i : Z) : M pyval :=
  age <- random_randint 22 60 ;;
  zone <- random_choice zones ;;
  status <- random_choice statuses ;;
  ppe <- random_choice [true; false] ;;
  t <- now ;;
  days <- random_randint 1 90 ;;
  ret (PDict [
    ("id", PStr ("W" +:+ str_int (1000 + i)));
    ("name", PStr ("Worker " +:+ str_int i));
    ("age", PInt age);
    ("zone", PStr zone);
    ("status", PStr status);
    ("ppe_compliance", PBool ppe);
    ("certification_valid", PBool true);
    ("last_safety_training", PDatetime (dt_sub t (timedelta days 0)))
  ]).

(** [range(a, b)] *)
Definition py_range (a b : Z) : list Z := seqZ a (b - a).

Definition generate_mock_workers : M (list pyval) :=
  mapM generate_worker (py_range 1 51).

Definition strs (l : list string) : pyval := PList (PStr <$> l).

(** The list literal returned by [generate_mock_schedules]. *)
Definition shift_records : pyval :=
  PList [
    PDict [
      ("shift_id", PStr "A001");
      ("shift_name", PStr "Morning Shift");
      ("start_time", PStr "06:00");
      ("end_time", PStr "14:00");
      ("workers_assigned", PInt 25);
      ("supervisor", PStr "John Supervisor");
      ("tasks", strs ["Production"; "Quality Control"; "Maintenance"])
    ];
    PDict [
      ("shift_id", PStr "B001");
      ("shift_name", PStr "Afternoon Shift");
      ("start_time", PStr "14:00");
      ("end_time", PStr "22:00");
      ("workers_assigned", PInt 22);
      ("supervisor", PStr "Mary Manager");
      ("tasks", strs ["Production"; "Equipment Check"; "Safety Audit"])
    ];
    PDict [
      ("shift_id", PStr "C001");
      ("shift_name", PStr "Night Shift");
      ("start_time", PStr "22:00");
      ("end_time", PStr "06:00");
      ("workers_assigned", PInt 15);
      ("supervisor", PStr "Bob Controller");
      ("tasks", strs ["Maintenance"; "Deep Cleaning"; "System Check"])
    ]
  ].

Definition generate_mock_schedules : M pyval := ret shift_records.

(** The literal assigned to [self.production_metrics]. *)
Definition baseline_metrics : pyval :=
  PDict [
    ("production_rate", PInt 2450);
    ("efficiency", PFloat (Float64.lit 873 1));
    ("temperature", PInt 1480);
    ("energy_consumption", PFloat (Float64.lit 852 1));
    ("co2_emissions", PInt (-12))
  ].

(** [PlantDataStore.__init__] *)
Definition PlantDataStore_init : M PlantDataStore :=
  ws <- generate_mock_workers ;;
  lw <- alloc (PList ws) ;;
  lv <- alloc (PList []) ;;
  lm <- alloc baseline_metrics ;;
  ss <- generate_mock_schedules ;;
  ls <- alloc ss ;;
  ret {| workers := lw; safety_violations := lv;
         production_metrics := lm; schedules := ls |}.

(** ** Requests and responses *)

(** The body of a request: absent, text that is not JSON, or text that
    parses to the given value. *)
Inductive req_body :=
| NoBody
| Malformed (raw : string)
| JsonText (v : pyval).

Record request := Request {
  json_content_type : bool;     (* Content-Type is application/json *)
  req_data : req_body
}.

(** [request.json], as Flask 2.1 and later behave: a request that is not
    declared as JSON is refused with 415, a body that does not parse with 400.
    (Older versions return [None] for the former, on which [.get] raises
    [AttributeError]: the views fail there too.) *)
Definition request_json (rq : request) : result pyval :=
  if json_content_type rq then
    match req_data rq with
    | JsonText v => Ok v
    | NoBody | Malformed _ => Raise BadRequest
    end
  else Raise UnsupportedMediaType.

Inductive resp_body :=
| Html (s : string)
| Json (v : pyval)
| ErrorPage (e : exn).

Record response := Response {
  resp_body_of : resp_body;
  status_code : Z
}.

(** [jsonify(v)], returned alone or with a status code. The body is the
    object handed to [jsonify]. *)
Definition jsonify (v : pyval) : response := Response (Json v) 200.
Definition jsonify_with (v : pyval) (code : Z) : response := Response (Json v) code.

(** [open(path).read()] on [frontend/index.html]. *)
Definition read_frontend_index : M string :=
  fun w =>
    match frontend_index w with
    | FileContents s => (Ok s, w)
    | FileMissing => (Raise FileNotFoundError, w)
    | FileError e => (Raise e, w)
    end.

(** [try: m except FileNotFoundError: h] *)
Definition except_FileNotFoundError {A} (m h : M A) : M A :=
  fun w =>
    match m w with
    | (Raise FileNotFoundError, w') => h w'
    | r => r
    end.

(** ** The request handlers *)

Section Handlers.

(** [str()] of the objects whose text form is not spelled out here (floats,
    datetimes, lists and dicts). *)
Variable py_repr : pyval -> string.

(** The text an f-string puts in place of [{v}]. *)
Definition py_str (v : pyval) : string :=
  match v with
  | PStr s => s
  | PNone => "None"
  | PBool true => "True"
  | PBool false => "False"
  | PInt n => str_int n
  | _ => py_repr v
  end.

(** The store bound to the global [plant_data]. *)
Variable plant_data : PlantDataStore.

(** [GET /] *)
Definition index : M response :=
  except_FileNotFoundError
    (s <- read_frontend_index ;; ret (Response (Html s) 200))
    (ret (jsonify_with
            (PDict [("error",
               PStr "Frontend not found. Please ensure index.html exists in frontend folder")])
            404)).

(** [GET /api/health] *)
Definition health_check : M response :=
  t <- now ;;
  ret (jsonify (PDict [
    ("status", PStr "healthy");
    ("timestamp", PStr (isoformat t));
    ("version", PStr "1.0.0");
    ("services", PDict [
       ("ai_engine", PStr "online");
       ("safety_monitor", PStr "online");
       ("database", PStr "online")])
  ])).

(** [GET /api/operations/metrics] *)
Definition get_operations_metrics : M response :=
  metrics <- py_copy (production_metrics plant_data) ;;
  iadd_item metrics "production_rate" (k <- random_randint (-50) 50 ;; ret (PInt k)) ;;;
  iadd_item metrics "efficiency" (random_uniform (PInt (-2)) (PInt 2)) ;;;
  iadd_item metrics "temperature" (k <- random_randint (-20) 20 ;; ret (PInt k)) ;;;
  data <- load metrics ;;
  t <- now ;;
  ret (jsonify (PDict [
    ("status", PStr "success");
    ("data", data);
    ("timestamp", PStr (isoformat t))
  ])).

(** [round((a / b) * 100, 1)] *)
Definition percentage (a b : Z) : result pyval :=
  rbind (py_truediv (PInt a) (PInt b)) (fun q =>
  rbind (py_mul q (PInt 100)) py_round1).

(** [GET /api/safety/workers]. The local [workers] is the list object of the
    store itself, not a copy; it is only read, so it is read once here. *)
Definition get_worker_safety_status : M response :=
  ws <- load (workers plant_data) ;;
  total_workers <- lift (py_len ws) ;;
  safe_workers <- lift (count_comp
    (fun w => rbind (getitem w "status") (fun v => Ok (py_eq_str v "Safe"))) ws) ;;
  ppe_compliant <- lift (count_comp
    (fun w => rbind (getitem w "ppe_compliance") (fun v => Ok (py_truthy v))) ws) ;;
  violations <- lift (count_comp
    (fun w => rbind (getitem w "status") (fun v =>
              Ok (py_in_strs v ["PPE Missing"; "Training Required"]))) ws) ;;
  first <- lift (py_slice_to 10 ws) ;;
  rate <- lift (percentage ppe_compliant total_workers) ;;
  score <- lift (percentage safe_workers total_workers) ;;
  t <- now ;;
  ret (jsonify (PDict [
    ("status", PStr "success");
    ("data", PDict [
       ("workers", first);
       ("statistics", PDict [
          ("total_workers", PInt total_workers);
          ("safe_workers", PInt safe_workers);
          ("ppe_compliance_rate", rate);
          ("violations_today", PInt violations);
          ("safety_score", score)])]);
    ("timestamp", PStr (isoformat t))
  ])).

(** [GET /api/safety/violations] *)
Definition get_safety_violations : M response :=
  t1 <- now ;;
  t2 <- now ;;
  t <- now ;;
  ret (jsonify (PDict [
    ("status", PStr "success");
    ("data", PList [
       PDict [
         ("id", PStr "V001");
         ("worker_id", PStr "W1047");
         ("worker_name", PStr "Ahmed Hassan");
         ("violation_type", PStr "PPE Missing");
         ("location", PStr "Zone B");
         ("severity", PStr "Medium");
         ("timestamp", PStr (isoformat (dt_sub t1 (timedelta 0 2))));
         ("resolved", PBool false)];
       PDict [
         ("id", PStr "V002");
         ("worker_id", PStr "W1023");
         ("worker_name", PStr "Lisa Chen");
         ("violation_type", PStr "Unauthorized Zone Access");
         ("location", PStr "Zone D");
         ("severity", PStr "High");
         ("timestamp", PStr (isoformat (dt_sub t2 (timedelta 0 5))));
         ("resolved", PBool true)]]);
    ("timestamp", PStr (isoformat t))
  ])).

(** The chain of comparisons on [current_time] in [get_current_schedule]. *)
Definition current_shift_of (current_time : Z) : string :=
  if (6 <=? current_time)%Z && (current_time <? 14)%Z then "Morning Shift"
  else if (14 <=? current_time)%Z && (current_time <? 22)%Z then "Afternoon Shift"
  else "Night Shift".

(** [GET /api/schedule/current] *)
Definition get_current_schedule : M response :=
  t0 <- now ;;
  let current_time := hour t0 in
  let current_shift := current_shift_of current_time in
  sch <- load (schedules plant_data) ;;
  t1 <- now ;;
  t <- now ;;
  ret (jsonify (PDict [
    ("status", PStr "success");
    ("data", PDict [
       ("schedules", sch);
       ("current_shift", PStr current_shift);
       ("current_time", PStr (strftime_HM t1))]);
    ("timestamp", PStr (isoformat t))
  ])).

(** [POST /api/schedule/optimize] *)
Definition optimize_schedule : M response :=
  a <- random_randint 1000 9999 ;;
  b <- random_randint 5 15 ;;
  c <- random_randint 10000 50000 ;;
  d <- random_randint 2 8 ;;
  t <- now ;;
  ret (jsonify (PDict [
    ("status", PStr "success");
    ("message", PStr "Schedule optimization completed");
    ("data", PDict [
       ("optimization_id", PStr ("OPT_" +:+ str_int a));
       ("improvements", PDict [
          ("efficiency_gain", PStr (str_int b +:+ "%"));
          ("energy_savings", PStr ("₹" +:+ str_int c +:+ "/day"));
          ("safety_score_improvement", PStr (str_int d +:+ " points"))]);
       ("recommended_changes", strs [
          "Redistribute workers from Zone A to Zone C during peak hours";
          "Schedule maintenance during low-production periods";
          "Implement staggered break times to maintain productivity"]);
       ("status", PStr "completed")]);
    ("timestamp", PStr (isoformat t))
  ])).

(** [GET /api/compliance/status] *)
Definition get_compliance_status : M response :=
  t <- now ;;
  ret (jsonify (PDict [
    ("status", PStr "success");
    ("data", PDict [
       ("age_verification", PDict [
          ("status", PStr "compliant");
          ("verified_workers", PInt 50);
          ("total_workers", PInt 50);
          ("compliance_rate", PInt 100)]);
       ("safety_training", PDict [
          ("status", PStr "mostly_compliant");
          ("completed_training", PInt 48);
          ("total_workers", PInt 50);
          ("compliance_rate", PInt 96)]);
       ("environmental", PDict [
          ("status", PStr "compliant");
          ("emissions_target", PInt (-10));
          ("current_emissions", PInt (-12));
          ("compliance_rate", PInt 120)]);
       ("labor_standards", PDict [
          ("status", PStr "compliant");
          ("working_hours_violations", PInt 0);
          ("overtime_compliance", PInt 100);
          ("break_time_compliance", PInt 98)])]);
    ("timestamp", PStr (isoformat t))
  ])).

(** The six f-strings of [ai_chat], with [m] the text of [{user_message}]. *)
Definition ai_responses (m : string) : list string := [
  "Based on your query about '" +:+ m +:+
    "', I recommend optimizing kiln temperature to 1470°C for better efficiency.";
  "Regarding '" +:+ m +:+
    "', all safety protocols are currently being followed. Worker compliance is at 96%.";
  "For '" +:+ m +:+
    "', I suggest scheduling preventive maintenance during the next low-production period.";
  "Analyzing '" +:+ m +:+
    "': Energy consumption can be reduced by 8% through parameter adjustments.";
  "About '" +:+ m +:+
    "': Current production rate is optimal. Consider adjusting only if demand increases.";
  "Concerning '" +:+ m +:+
    "': All environmental targets are being met. CO2 emissions are 12% below target."
].

Definition chat_suggestions : list string := [
  "Would you like me to implement this recommendation?";
  "Should I schedule this change for the next maintenance window?";
  "Would you like a detailed analysis report?"
].

(** [POST /api/ai/chat] *)
Definition ai_chat (rq : request) : M response :=
  j <- lift (request_json rq) ;;
  user_message <- lift (py_get j "message" (PStr "")) ;;
  resp <- random_choice (ai_responses (py_str user_message)) ;;
  confidence <- random_uniform (PFloat (Float64.lit 85 2)) (PFloat (Float64.lit 98 2)) ;;
  t <- now ;;
  ret (jsonify (PDict [
    ("status", PStr "success");
    ("data", PDict [
       ("user_message", user_message);
       ("ai_response", PStr resp);
       ("confidence", confidence);
       ("suggestions", strs chat_suggestions)]);
    ("timestamp", PStr (isoformat t))
  ])).

(** [POST /api/reports/safety] *)
Definition generate_safety_report (rq : request) : M response :=
  t0 <- now ;;
  let report_id := "RPT_" +:+ strftime_Ymd_HMS t0 in
  j <- lift (request_json rq) ;;
  period <- lift (py_get j "period" (PStr "daily")) ;;
  incidents <- random_randint 0 3 ;;
  ppe_avg <- random_uniform (PInt 94) (PInt 98) ;;
  training <- random_uniform (PInt 95) (PInt 100) ;;
  score <- random_uniform (PInt 92) (PInt 98) ;;
  t1 <- now ;;
  ret (jsonify (PDict [
    ("status", PStr "success");
    ("message", PStr "Safety report generated successfully");
    ("data", PDict [
       ("report_id", PStr report_id);
       ("period", period);
       ("summary", PDict [
          ("total_incidents", PInt incidents);
          ("ppe_compliance_avg", ppe_avg);
          ("safety_training_completion", training);
          ("safety_score", score)]);
       ("recommendations", strs [
          "Increase safety training frequency in Zone B";
          "Install additional PPE monitoring cameras";
          "Implement reward system for safety compliance"]);
       ("generated_at", PStr (isoformat t1))]);
    ("download_url", PStr ("/api/reports/download/" +:+ report_id))
  ])).

(** [POST /api/emergency/stop] *)
Definition emergency_stop (rq : request) : M response :=
  t0 <- now ;;
  let stop_id := "ESTOP_" +:+ strftime_Ymd_HMS t0 in
  j <- lift (request_json rq) ;;
  initiated_by <- lift (py_get j "user_id" (PStr "system")) ;;
  j' <- lift (request_json rq) ;;
  reason <- lift (py_get j' "reason" (PStr "Manual emergency stop")) ;;
  t <- now ;;
  ret (jsonify (PDict [
    ("status", PStr "success");
    ("message", PStr "Emergency stop activated successfully");
    ("data", PDict [
       ("stop_id", PStr stop_id);
       ("initiated_by", initiated_by);
       ("reason", reason);
       ("affected_systems", strs [
          "Production Line 1";
          "Production Line 2";
          "Kiln Operations";
          "Conveyor Systems"]);
       ("response_time", PStr "< 5 seconds");
       ("status", PStr "emergency_stop_active")]);
    ("timestamp", PStr (isoformat t))
  ])).

(** ** Routing and the server loop *)

Inductive endpoint :=
| Index
| Health
| OperationsMetrics
| SafetyWorkers
| SafetyViolations
| ScheduleCurrent
| ScheduleOptimize
| ComplianceStatus
| AiChat
| ReportsSafety
| EmergencyStop.

Definition handle (ep : endpoint) (rq : request) : M response :=
  match ep with
  | Index => index
  | Health => health_check
  | OperationsMetrics => get_operations_metrics
  | SafetyWorkers => get_worker_safety_status
  | SafetyViolations => get_safety_violations
  | ScheduleCurrent => get_current_schedule
  | ScheduleOptimize => optimize_schedule
  | ComplianceStatus => get_compliance_status
  | AiChat => ai_chat rq
  | ReportsSafety => generate_safety_report rq
  | EmergencyStop => emergency_stop rq
  end.

#[global] Instance endpoint_eq_dec : EqDecision endpoint.
Proof. solve_decision. Defined.

(** The status Flask answers with when a view raises. *)
Definition http_status (e : exn) : Z :=
  match e with
  | BadRequest => 400
  | UnsupportedMediaType => 415
  | _ => 500
  end.

(** One request served: the view's response, or the error response made
    from the exception it raised. *)
Definition serve (ep : endpoint) (rq : request) (w : world) : response * world :=
  match handle ep rq w with
  | (Ok r, w') => (r, w')
  | (Raise e, w') => (Response (ErrorPage e) (http_status e), w')
  end.

(** A run of the server over a sequence of requests. *)
Fixpoint serve_all (reqs : list (endpoint * request)) (w : world)
  : list response * world :=
  match reqs with
  | [] => ([], w)
  | (ep, rq) :: reqs' =>
      let '(r, w') := serve ep rq w in
      let '(rs, w'') := serve_all reqs' w' in
      (r :: rs, w'')
  end.

End Handlers.

(** ** Process start *)

(** [plant_data = PlantDataStore()] at import time. The constructor cannot
    raise ([boot_init] below); the second branch only makes [boot] total. *)
Definition boot (w0 : world) : PlantDataStore * world :=
  match PlantDataStore_init w0 with
  | (Ok pd, w1) => (pd, w1)
  | (Raise _, w1) =>
      ({| workers := 1; safety_violations := 1;
          production_metrics := 1; schedules := 1 |}%positive, w1)
  end.

(** ** Reading a response *)

(** [v[k1][k2]...] on nested dicts. *)
Fixpoint at_path (ks : list string) (v : pyval) : option pyval :=
  match ks with
  | [] => Some v
  | k :: ks' =>
      match v with
      | PDict d => dict_get k d ≫= at_path ks'
      | _ => None
      end
  end.

Definition resp_json (r : response) : option pyval :=
  match resp_body_of r with
  | Json v => Some v
  | _ => None
  end.

(** The value found in the JSON body of [r] under the keys [ks]. *)
Definition resp_at (ks : list string) (r : response) : option pyval :=
  resp_json r ≫= at_path ks.

Definition has_field (k : string) (r : response) : bool :=
  match resp_at [k] r with
  | Some _ => true
  | None => false
  end.

(** ** Vocabulary of the statements *)

(** The world after [r] further draws and [c] further clock readings. *)
Definition skip (r c : nat) (w : world) : world :=
  World (heap w) (rand w) (r + rand_pos w) (clock w) (c + clock_pos w)
        (frontend_index w).

(** The objects of the store are the roster [ws] and the startup literals. *)
Definition store_at (pd : PlantDataStore) (ws : list pyval) (w : world) : Prop :=
  heap w !! workers pd = Some (PList ws) /\
  heap w !! safety_violations pd = Some (PList []) /\
  heap w !! production_metrics pd = Some baseline_metrics /\
  heap w !! schedules pd = Some shift_records.

(** [v] is a worker record as the loop body builds it for index [i], its
    training date taken from a clock reading numbered in [[lo, hi)]. *)
Definition is_worker (ck : nat -> datetime) (lo hi : nat) (i : Z) (v : pyval)
  : Prop :=
  exists (age : Z) (zone status : string) (ppe : bool) (k : nat) (days : Z),
    v = PDict [
      ("id", PStr ("W" +:+ str_int (1000 + i)));
      ("name", PStr ("Worker " +:+ str_int i));
      ("age", PInt age);
      ("zone", PStr zone);
      ("status", PStr status);
      ("ppe_compliance", PBool ppe);
      ("certification_valid", PBool true);
      ("last_safety_training", PDatetime (dt_sub (ck k) (timedelta days 0)))
    ] /\
    (22 <= age <= 60)%Z /\ zone ∈ zones /\ status ∈ statuses /\
    (lo <= k < hi)%nat /\ (1 <= days <= 90)%Z.

(** The [k]-th raw draw still to come in [w], and the int it stands for. *)
Definition raw (w : world) (k : nat) : N := rand w (k + rand_pos w).
Definition draw (w : world) (k : nat) : Z := Z.of_N (raw w k).

(** [random.uniform(a, b)] on floats [a], [b] for the raw draw [r]. *)
Definition uniform_float (a b : Q) (r : N) : Q :=
  Float64.fl (a + Float64.fl (Float64.fl (b - a) * unit_float r)).

(** [w'] continues [w]: same oracles and file, positions not moved back, and
    every object of [w] still there with the same contents. *)
Definition continues (w w' : world) : Prop :=
  rand w' = rand w /\ clock w' = clock w /\
  frontend_index w' = frontend_index w /\
  (rand_pos w <= rand_pos w')%nat /\ (clock_pos w <= clock_pos w')%nat /\
  forall l, is_Some (heap w !! l) -> heap w' !! l = heap w !! l.

(** [m] leaves the heap, the oracles and the file as they are. *)
Definition reads_only {A} (m : M A) : Prop :=
  forall w,
    heap (snd (m w)) = heap w /\
    rand (snd (m w)) = rand w /\ clock (snd (m w)) = clock w /\
    frontend_index (snd (m w)) = frontend_index w /\
    (rand_pos w <= rand_pos (snd (m w)))%nat /\
    (clock_pos w <= clock_pos (snd (m w)))%nat.

(** The efficiency delta of the metrics view for the raw draw [r]:
    [random.uniform(-2, 2)]. *)
Definition efficiency_delta (r : N) : Q :=
  Float64.fl (Float64.of_int (-2) + Float64.fl (Float64.of_int 4 * unit_float r)).

(** The [data] of the metrics view in [w]. *)
Definition metrics_data (w : world) : pyval :=
  PDict [
    ("production_rate", PInt (2450 + (-50 + draw w 0 mod 101)));
    ("efficiency",
     PFloat (Float64.fl (Float64.lit 873 1 + efficiency_delta (raw w 1))));
    ("temperature", PInt (1480 + (-20 + draw w 2 mod 41)));
    ("energy_consumption", PFloat (Float64.lit 852 1));
    ("co2_emissions", PInt (-12))
  ].

(** Observers of a worker record. *)
Definition status_is (s : string) (v : pyval) : bool :=
  match getitem v "status" with Ok x => py_eq_str x s | Raise _ => false end.

Definition status_in (ss : list string) (v : pyval) : bool :=
  match getitem v "status" with Ok x => py_in_strs x ss | Raise _ => false end.

Definition ppe_compliant (v : pyval) : bool :=
  match getitem v "ppe_compliance" with Ok x => py_truthy x | Raise _ => false end.

(** The number of items of [l] that satisfy [p]. *)
Definition count (p : pyval -> bool) (l : list pyval) : Z :=
  Z.of_nat (length (List.filter p l)).

(** The float [round((a / b) * 100, 1)] evaluates to. *)
Definition percentage_value (a b : Z) : Q :=
  Float64.round1
    (Float64.fl (Float64.fl (inject_Z a / inject_Z b) * Float64.of_int 100)).

(** The [statistics] of the worker-safety view over the roster [ws]. *)
Definition safety_statistics (ws : list pyval) : pyval :=
  let n := Z.of_nat (length ws) in
  PDict [
    ("total_workers", PInt n);
    ("safe_workers", PInt (count (status_is "Safe") ws));
    ("ppe_compliance_rate", PFloat (percentage_value (count ppe_compliant ws) n));
    ("violations_today",
     PInt (count (status_in ["PPE Missing"; "Training Required"]) ws));
    ("safety_score", PFloat (percentage_value (count (status_is "Safe") ws) n))
  ].

(** The [data] of the worker-safety view over the roster [ws]. *)
Definition safety_data (ws : list pyval) : pyval :=
  PDict [
    ("workers", PList (take 10 ws));
    ("statistics", safety_statistics ws)
  ].

(** A record with the two keys the worker-safety view reads. *)
Definition worker_like (v : pyval) : Prop :=
  (exists x, getitem v "status" = Ok x) /\
  (exists y, getitem v "ppe_compliance" = Ok y).

(** The last reading of the clock made before [w]. *)
Definition last_reading (w : world) : datetime :=
  clock w (Nat.pred (clock_pos w)).

(** The identifiers of the worker records of a worker-safety response. *)
Definition response_worker_ids (r : response) : option (list (result pyval)) :=
  match resp_at ["data"; "workers"] r with
  | Some (PList l) => Some (map (fun v => getitem v "id") l)
  | _ => None
  end.

(** The number of worker records of a worker-safety response. *)
Definition response_worker_count (r : response) : option nat :=
  match resp_at ["data"; "workers"] r with
  | Some (PList l) => Some (length l)
  | _ => None
  end.

(** The store of a process started in [w0], the world right after the
    start, and the world after the requests [reqs] were served. *)
Definition plant (w0 : world) : PlantDataStore := fst (boot w0).
Definition started (w0 : world) : world := snd (boot w0).
Definition after (py_repr : pyval -> string) (w0 : world)
    (reqs : list (endpoint * request)) : world :=
  snd (serve_all py_repr (plant w0) reqs (started w0)).

(** The identifier the loop gives worker number [i]. *)
Definition worker_id (i : Z) : result pyval := Ok (PStr ("W" +:+ str_int (1000 + i))).

(** The time bands as the specification words them: [[6,14)] is the
    morning shift, [[14,22)] the afternoon shift, any other hour the night
    shift. *)
Definition shift_by_band (h : Z) : string :=
  if decide (6 <= h < 14)%Z then "Morning Shift"
  else if decide (14 <= h < 22)%Z then "Afternoon Shift"
  else "Night Shift".

(** The views that read [request.json]. *)
Definition reads_body (ep : endpoint) : bool :=
  match ep with
  | AiChat | ReportsSafety | EmergencyStop => true
  | _ => false
  end.

(** A sample process: an empty heap, some generator, a clock that starts at
    2026-11-04T09:56:07 and advances by a microsecond per reading, and no
    frontend file. *)
Definition sample_world : world :=
  World ∅ (fun i => N.of_nat i * 7919 + 13)%N 0
        (fun i => Datetime (63929469367000000 + Z.of_nat i)) 0 FileMissing.

(** A sample rendering for the objects [py_str] does not spell out. *)
Definition sample_repr (v : pyval) : string := "<object>".

(** A process whose generator only makes the largest raw draw. *)
Definition top_draw_world : world :=
  World ∅ (fun _ => 9007199254740991%N) 0 (clock sample_world) 0 FileMissing.

(** A process whose generator only makes the smallest raw draw. *)
Definition zero_draw_world : world :=
  World ∅ (fun _ => 0%N) 0 (clock sample_world) 0 FileMissing.

(** Sample requests. *)
Definition get_request : request := Request false NoBody.

Definition chat_request (m : string) : request :=
  Request true (JsonText (PDict [("message", PStr m)])).

Definition empty_object_request : request := Request true (JsonText (PDict [])).


(** A clock that reads hour [h] of 2026-11-04 at every reading. *)
Definition world_at_hour (h : Z) : world :=
  World ∅ (rand sample_world) 0
        (fun _ => Datetime (63929433600000000 + h * us_per_hour)) 0 FileMissing.

(** *** The roster, record by record *)

(** The record [generate_worker i] returns in [w], written out: the five
    calls of the generator are made in the order age, zone, status, PPE
    flag, days, and the clock is read once. *)
Definition record_in (i : Z) (w : world) : pyval :=
  PDict [
    ("id", PStr ("W" +:+ str_int (1000 + i)));
    ("name", PStr ("Worker " +:+ str_int i));
    ("age", PInt (22 + draw w 0 mod 39));
    ("zone", PStr (nth (Z.to_nat (draw w 1 mod 4)) zones "Zone A"));
    ("status", PStr (nth (Z.to_nat (draw w 2 mod 4)) statuses "Safe"));
    ("ppe_compliance", PBool (nth (Z.to_nat (draw w 3 mod 2)) [true; false] true));
    ("certification_valid", PBool true);
    ("last_safety_training",
     PDatetime (dt_sub (clock w (clock_pos w)) (timedelta (1 + draw w 4 mod 90) 0)))
  ].

(** The [j]-th record (from 0) of the roster of a process started in [w0]. *)
Definition worker_of (w0 : world) (j : nat) : pyval :=
  record_in (Z.of_nat j + 1) (skip (5 * j) j w0).

(** A worker record whose age is an int of at least 18. *)
Definition is_adult (v : pyval) : bool :=
  match getitem v "age" with
  | Ok (PInt a) => (18 <=? a)%Z
  | _ => false
  end.

(** *** What a request costs and how it is answered *)

(** [request.json] is a dict. *)
Definition body_is_object (rq : request) : bool :=
  match request_json rq with
  | Ok (PDict _) => true
  | _ => false
  end.

(** The times a view reads the clock. *)
Definition readings_used (ep : endpoint) (rq : request) : nat :=
  match ep with
  | Index => 0
  | SafetyViolations | ScheduleCurrent => 3
  | AiChat => if body_is_object rq then 1 else 0
  | ReportsSafety | EmergencyStop => if body_is_object rq then 2 else 1
  | _ => 1
  end.

(** The clock readings a sequence of requests takes. *)
Fixpoint total_readings (reqs : list (endpoint * request)) : nat :=
  match reqs with
  | [] => 0
  | (ep, rq) :: reqs' => readings_used ep rq + total_readings reqs'
  end.

(** The status a view other than [index] answers with in a running process:
    the views that read the body fail where [request.json] or [.get] on it
    fails, the others never do. *)
Definition expected_status (ep : endpoint) (rq : request) : Z :=
  if reads_body ep then
    match request_json rq with
    | Ok (PDict _) => 200
    | Ok _ => 500
    | Raise e => http_status e
    end
  else 200.

(** *** Times and floats of the reports *)

(** The whole seconds of a [datetime]. *)
Definition whole_seconds (d : datetime) : Z := dt_us d / 1000000.

(** [random.uniform(a, b)] on ints [a], [b] for the raw draw [r]:
    [a + (b - a) * random()]. *)
Definition uniform_int (a b : Z) (r : N) : Q :=
  Float64.fl (Float64.of_int a
              + Float64.fl (Float64.of_int (b - a) * unit_float r)).

(** Two fractions with the same numerator and denominator. *)
Definition same_fraction (a b : Q) : bool :=
  (Qnum a =? Qnum b)%Z && (Qden a =? Qden b)%positive.

(** *** Further sample processes and requests *)

(** A clock that reads 13:59:59.999999 of 2026-11-04 up to reading [base]
    and 14:00:00 at every later reading. *)
Definition boundary_clock (base : nat) (i : nat) : datetime :=
  if (i <=? base)%nat then Datetime (63929433600000000 + 14 * us_per_hour - 1)
  else Datetime (63929433600000000 + 14 * us_per_hour).

(** A process whose first request after the start falls on that boundary:
    the start takes the readings 0..49. *)
Definition boundary_world : world :=
  World ∅ (rand sample_world) 0 (boundary_clock 50) 0 FileMissing.

(** A chat request whose message is JSON [null]. *)
Definition null_message_request : request :=
  Request true (JsonText (PDict [("message", PNone)])).

(** A process whose frontend file exists but cannot be opened. *)
Definition unreadable_world : world :=
  World ∅ (rand sample_world) 0 (clock sample_world) 0 (FileError OSError).

(** ** Checks of the run-time model on samples *)

(** The literals [87.3], [0.85] and [0.98] denote the rationals that
    [float.as_integer_ratio()] reports for them. *)
Example lit_87_3 : Float64.lit 873 1 = (6143191366710067 # 70368744177664)%Q.
Proof. vm_compute. reflexivity. Qed.

Example lit_0_85 : Float64.lit 85 2 = (7656119366529843 # 9007199254740992)%Q.
Proof. vm_compute. reflexivity. Qed.

Example lit_0_98 : Float64.lit 98 2 = (2206763817411543 # 2251799813685248)%Q.
Proof. vm_compute. reflexivity. Qed.

(** [7 / 50 * 100] is [14.000000000000002], and [round] of it to one decimal
    is [14.0]. *)
Example seven_fiftieths :
  Float64.fl (Float64.fl (7 # 50) * Float64.of_int 100)
  = (7881299347898369 # 562949953421312)%Q /\
  percentage_value 7 50 = 14%Q.
Proof. vm_compute. split; reflexivity. Qed.

(** Dates and their text, as [datetime] gives them. *)
Example ord2ymd_samples :
  ord2ymd 1 = (1, 1, 1)%Z /\ ord2ymd 730179 = (2000, 2, 29)%Z /\
  ord2ymd 730180 = (2000, 3, 1)%Z /\ ord2ymd 739924 = (2026, 11, 4)%Z /\
  ord2ymd 3652059 = (9999, 12, 31)%Z.
Proof. vm_compute. repeat split; reflexivity. Qed.

Example isoformat_samples :
  isoformat (Datetime 63929469367000123) = "2026-11-04T09:56:07.000123" /\
  isoformat (Datetime 63929433600000000) = "2026-11-04T00:00:00" /\
  strftime_Ymd_HMS (Datetime 63929469367000123) = "20261104_095607" /\
  strftime_HM (Datetime 63929469367000123) = "09:56".
Proof. vm_compute. repeat split; reflexivity. Qed.

(** ** Facts on binary64 rounding *)

Module Float64Facts.
Import Float64.
Local Open Scope Q_scope.

Lemma pow2_pos e : 0 < pow2 e.
Proof. apply Qpower_0_lt. reflexivity. Qed.

Lemma pow2_add a b : pow2 (a + b) == pow2 a * pow2 b.
Proof. apply Qpower_plus. discriminate. Qed.

Lemma pow2_succ a : pow2 (a + 1) == 2 * pow2 a.
Proof. rewrite pow2_add. unfold pow2 at 2. simpl. ring. Qed.

Lemma pow2_le a b : (a <= b)%Z -> pow2 a <= pow2 b.
Proof. intros. apply Qpower_le_compat_l; [assumption | discriminate]. Qed.

Lemma pow2_inject k : (0 <= k)%Z -> inject_Z (2 ^ k) == pow2 k.
Proof. intros. unfold pow2. rewrite Zpower_Qpower by assumption. reflexivity. Qed.

Lemma floor_bounds x : inject_Z (Qfloor x) <= x /\ x < inject_Z (Qfloor x) + 1.
Proof.
  split; [apply Qfloor_le |].
  pose proof (Qlt_floor x) as H. rewrite inject_Z_plus in H. exact H.
Qed.

Ltac qcmp H :=
  match type of H with
  | Qcompare _ _ = Eq => apply Qeq_alt in H
  | Qcompare _ _ = Lt => apply Qlt_alt in H
  | Qcompare _ _ = Gt => apply Qgt_alt in H
  end.

Lemma rne_cases x :
  let f := Qfloor x in
  (rne x = f /\ x - inject_Z f <= 1 # 2) \/
  (rne x = (f + 1)%Z /\ 1 # 2 <= x - inject_Z f).
Proof.
  intros f. unfold rne. fold f.
  destruct (Qcompare (x - inject_Z f) (1 # 2)) eqn:E; qcmp E.
  - destruct (Z.even f); [left | right]; (split; [reflexivity | lra]).
  - left. split; [reflexivity | lra].
  - right. split; [reflexivity | lra].
Qed.

Lemma rne_mono x y : x <= y -> (rne x <= rne y)%Z.
Proof.
  intros Hxy.
  pose proof (Qfloor_resp_le _ _ Hxy) as Hf.
  destruct (Z.eq_dec (Qfloor x) (Qfloor y)) as [Heq | Hne].
  - unfold rne. rewrite <- Heq.
    destruct (floor_bounds x) as [_ Hx].
    destruct (Qcompare (x - inject_Z (Qfloor x)) (1 # 2)) eqn:Ex;
      destruct (Qcompare (y - inject_Z (Qfloor x)) (1 # 2)) eqn:Ey;
      qcmp Ex; qcmp Ey; destruct (Z.even (Qfloor x)); try lia; exfalso; lra.
  - destruct (rne_cases x) as [[-> _] | [-> _]];
      destruct (rne_cases y) as [[-> _] | [-> _]]; lia.
Qed.

Lemma rne_inject z : rne (inject_Z z) = z.
Proof.
  unfold rne. rewrite Qfloor_Z.
  destruct (Qcompare (inject_Z z - inject_Z z) (1 # 2)) eqn:C;
    [exfalso; qcmp C; lra | reflexivity | exfalso; qcmp C; lra].
Qed.

Lemma rne_eq x z : x == inject_Z z -> rne x = z.
Proof.
  intros H. apply Z.le_antisymm.
  - rewrite <- (rne_inject z). apply rne_mono. lra.
  - rewrite <- (rne_inject z) at 1. apply rne_mono. lra.
Qed.

Lemma round_grid_mono e x y : x <= y -> round_grid e x <= round_grid e y.
Proof.
  intros H. unfold round_grid.
  pose proof (pow2_pos e) as Hp.
  apply Qmult_le_compat_r; [| lra].
  rewrite <- Zle_Qle. apply rne_mono.
  apply Qmult_le_compat_r; [assumption |].
  apply Qlt_le_weak, Qinv_lt_0_compat, Hp.
Qed.

Lemma round_grid_pow2 e k : (e <= k)%Z -> round_grid e (pow2 k) == pow2 k.
Proof.
  intros H. unfold round_grid.
  assert (Hq : pow2 k / pow2 e == inject_Z (2 ^ (k - e))).
  { rewrite pow2_inject by lia.
    replace k with ((k - e) + e)%Z at 1 by lia. rewrite pow2_add.
    pose proof (pow2_pos e). field. lra. }
  rewrite (rne_eq _ _ Hq). rewrite pow2_inject by lia.
  rewrite <- pow2_add. replace (k - e + e)%Z with k by lia. reflexivity.
Qed.

Lemma ilog2_spec x : 0 < x -> pow2 (ilog2 x) <= x /\ x < pow2 (ilog2 x + 1).
Proof.
  intros Hx. destruct x as [n d]. unfold ilog2. cbn [Qnum Qden].
  assert (Hn : (0 < n)%Z).
  { unfold Qlt in Hx. cbn in Hx. lia. }
  set (ln := Z.log2 n). set (ld := Z.log2 (Z.pos d)).
  destruct (Z.log2_spec n Hn) as [Hn1 Hn2]. fold ln in Hn1, Hn2.
  destruct (Z.log2_spec (Z.pos d) eq_refl) as [Hd1 Hd2]. fold ld in Hd1, Hd2.
  assert (Hln : (0 <= ln)%Z) by apply Z.log2_nonneg.
  assert (Hld : (0 <= ld)%Z) by apply Z.log2_nonneg.
  rewrite Zle_Qle, pow2_inject in Hn1, Hd1 by lia.
  rewrite Zlt_Qlt, pow2_inject in Hn2, Hd2 by lia.
  replace (Z.succ ln) with (ln + 1)%Z in Hn2 by lia.
  replace (Z.succ ld) with (ld + 1)%Z in Hd2 by lia.
  rewrite pow2_succ in Hn2, Hd2.
  assert (Hq : n # d == inject_Z n / inject_Z (Z.pos d)) by apply Qmake_Qdiv.
  assert (Ha : pow2 ld * pow2 (ln - ld) == pow2 ln).
  { rewrite <- pow2_add. replace (ld + (ln - ld))%Z with ln by lia. reflexivity. }
  pose proof (pow2_pos ld) as Pld. pose proof (pow2_pos (ln - ld)) as Pa.
  pose proof (pow2_pos ln) as Pln.
  set (N := inject_Z n) in *. set (D := inject_Z (Z.pos d)) in *.
  set (A := pow2 (ln - ld)) in *. set (PD := pow2 ld) in *. set (PN := pow2 ln) in *.
  assert (HD : 0 < D) by lra.
  destruct (Qle_bool A (n # d)) eqn:E.
  - apply Qle_bool_iff in E. split; [exact E |].
    rewrite pow2_succ. fold A. rewrite Hq.
    apply Qlt_shift_div_r; [exact HD |]. nra.
  - assert (E' : n # d < A).
    { apply Qnot_le_lt. intros C. apply Qle_bool_iff in C. congruence. }
    split.
    + assert (H2 : 2 * pow2 (ln - ld - 1) == A).
      { rewrite <- pow2_succ. unfold A.
        replace (ln - ld - 1 + 1)%Z with (ln - ld)%Z by lia. reflexivity. }
      set (B := pow2 (ln - ld - 1)) in *.
      rewrite Hq. apply Qle_shift_div_l; [exact HD |]. nra.
    + replace (ln - ld - 1 + 1)%Z with (ln - ld)%Z by lia. exact E'.
Qed.

Lemma ilog2_mono x y : 0 < x -> x <= y -> (ilog2 x <= ilog2 y)%Z.
Proof.
  intros Hx Hxy.
  destruct (ilog2_spec x Hx) as [Hx1 _].
  destruct (ilog2_spec y) as [_ Hy2]; [lra |].
  destruct (Z_le_gt_dec (ilog2 x) (ilog2 y)) as [H | H]; [exact H | exfalso].
  assert (Hp : pow2 (ilog2 y + 1) <= pow2 (ilog2 x)) by (apply pow2_le; lia).
  lra.
Qed.

Lemma flpos_bounds x :
  0 < x -> pow2 (ilog2 x) <= flpos x /\ flpos x <= pow2 (ilog2 x + 1).
Proof.
  intros Hx. destruct (ilog2_spec x Hx) as [H1 H2]. unfold flpos. split.
  - rewrite <- (round_grid_pow2 (ilog2 x - 52) (ilog2 x)) at 1 by lia.
    apply round_grid_mono, H1.
  - rewrite <- (round_grid_pow2 (ilog2 x - 52) (ilog2 x + 1)) by lia.
    apply round_grid_mono. lra.
Qed.

Lemma flpos_pos x : 0 < x -> 0 < flpos x.
Proof.
  intros Hx. destruct (flpos_bounds x Hx) as [H _].
  pose proof (pow2_pos (ilog2 x)). lra.
Qed.

Lemma flpos_mono x y : 0 < x -> x <= y -> flpos x <= flpos y.
Proof.
  intros Hx Hxy. assert (Hy : 0 < y) by lra.
  pose proof (ilog2_mono x y Hx Hxy) as HL.
  destruct (Z.eq_dec (ilog2 x) (ilog2 y)) as [E | NE].
  - unfold flpos. rewrite E. apply round_grid_mono, Hxy.
  - destruct (flpos_bounds x Hx) as [_ Hu]. destruct (flpos_bounds y Hy) as [Hl _].
    assert (Hp : pow2 (ilog2 x + 1) <= pow2 (ilog2 y)) by (apply pow2_le; lia).
    lra.
Qed.

(** Rounding to binary64 is monotone. *)
Lemma fl_mono x y : x <= y -> fl x <= fl y.
Proof.
  intros Hxy. unfold fl. rewrite !Qred_correct.
  destruct (Qcompare x 0) eqn:Ex; destruct (Qcompare y 0) eqn:Ey;
    qcmp Ex; qcmp Ey; try (exfalso; lra); try lra.
  - pose proof (flpos_pos y Ey). lra.
  - assert (H : 0 < - x) by lra. pose proof (flpos_pos _ H). lra.
  - assert (H : 0 < - y) by lra.
    assert (H' : - y <= - x) by lra.
    pose proof (flpos_mono _ _ H H'). lra.
  - assert (H : 0 < - x) by lra. pose proof (flpos_pos _ H).
    pose proof (flpos_pos y Ey). lra.
  - apply flpos_mono; assumption.
Qed.

(** A value that rounding leaves alone bounds the roundings of what it
    bounds. *)
Lemma fl_le_fixed x c : fl c == c -> x <= c -> fl x <= c.
Proof. intros Hc Hx. rewrite <- Hc. apply fl_mono, Hx. Qed.

Lemma fl_ge_fixed x c : fl c == c -> c <= x -> c <= fl x.
Proof. intros Hc Hx. rewrite <- Hc. apply fl_mono, Hx. Qed.

Lemma round1_range x : 0 <= x -> x <= 100 -> 0 <= round1 x /\ round1 x <= 100.
Proof.
  intros H0 H100. unfold round1.
  assert (Hlo : (0 <= rne (x * 10))%Z).
  { rewrite <- (rne_inject 0). apply rne_mono. change (inject_Z 0) with 0. lra. }
  assert (Hhi : (rne (x * 10) <= 1000)%Z).
  { rewrite <- (rne_inject 1000). apply rne_mono.
    change (inject_Z 1000) with 1000. lra. }
  rewrite Zle_Qle in Hlo, Hhi.
  change (inject_Z 0) with 0 in Hlo. change (inject_Z 1000) with 1000 in Hhi.
  split.
  - apply fl_ge_fixed; [reflexivity |].
    apply Qle_shift_div_l; [reflexivity | lra].
  - apply fl_le_fixed; [reflexivity |].
    apply Qle_shift_div_r; [reflexivity | lra].
Qed.

End Float64Facts.

(** *** Ranges of the floats the views compute *)

Section FloatRanges.
Import Float64 Float64Facts.
Local Open Scope Q_scope.

Lemma unit_float_range r : 0 <= unit_float r /\ unit_float r < 1.
Proof.
  unfold unit_float. rewrite Qred_correct.
  assert (H : (r mod 2 ^ 53 < 2 ^ 53)%N) by (apply N.mod_lt; discriminate).
  set (k := (r mod 2 ^ 53)%N) in *.
  unfold Qle, Qlt. cbn [Qnum Qden]. split; lia.
Qed.

Lemma efficiency_delta_range r :
  - (2) <= efficiency_delta r /\ efficiency_delta r <= 2.
Proof.
  destruct (unit_float_range r) as [H0 H1]. unfold efficiency_delta.
  set (u := unit_float r) in *.
  assert (H4 : of_int 4 == 4) by reflexivity.
  assert (H2 : of_int (-2) == - (2)) by reflexivity.
  assert (Hp : 0 <= fl (of_int 4 * u) /\ fl (of_int 4 * u) <= 4).
  { split.
    - apply fl_ge_fixed; [reflexivity |]. rewrite H4. lra.
    - apply fl_le_fixed; [reflexivity |]. rewrite H4. lra. }
  destruct Hp as [Hp0 Hp4]. split.
  - apply fl_ge_fixed; [reflexivity |]. rewrite H2. lra.
  - apply fl_le_fixed; [reflexivity |]. rewrite H2. lra.
Qed.

Lemma percentage_value_range a b :
  (0 <= a <= b)%Z -> (0 < b)%Z ->
  0 <= percentage_value a b /\ percentage_value a b <= 100.
Proof.
  intros Ha Hb. unfold percentage_value.
  assert (HA : 0 <= inject_Z a) by (change 0 with (inject_Z 0); rewrite <- Zle_Qle; lia).
  assert (HB : 0 < inject_Z b) by (change 0 with (inject_Z 0); rewrite <- Zlt_Qlt; lia).
  assert (HAB : inject_Z a <= inject_Z b) by (rewrite <- Zle_Qle; lia).
  assert (Hq : 0 <= inject_Z a / inject_Z b /\ inject_Z a / inject_Z b <= 1).
  { split.
    - apply Qle_shift_div_l; [exact HB | lra].
    - apply Qle_shift_div_r; [exact HB | lra]. }
  destruct Hq as [Hq0 Hq1].
  assert (Hf0 : 0 <= fl (inject_Z a / inject_Z b)) by (apply fl_ge_fixed; [reflexivity | exact Hq0]).
  assert (Hf1 : fl (inject_Z a / inject_Z b) <= 1) by (apply fl_le_fixed; [reflexivity | exact Hq1]).
  set (q := fl (inject_Z a / inject_Z b)) in *.
  assert (H100 : of_int 100 == 100) by reflexivity.
  apply round1_range.
  - apply fl_ge_fixed; [reflexivity |]. rewrite H100. lra.
  - apply fl_le_fixed; [reflexivity |]. rewrite H100. lra.
Qed.

Lemma uniform_float_range a b r :
  fl a == a -> 0 <= fl (b - a) -> fl (fl (b - a)) == fl (b - a) ->
  a <= uniform_float a b r /\ uniform_float a b r <= fl (a + fl (b - a)).
Proof.
  intros Fa Hc Fc. destruct (unit_float_range r) as [H0 H1].
  unfold uniform_float. set (u := unit_float r) in *. set (c := fl (b - a)) in *.
  assert (Hp0 : 0 <= fl (c * u)) by (apply fl_ge_fixed; [reflexivity | nra]).
  assert (Hp1 : fl (c * u) <= c) by (apply fl_le_fixed; [exact Fc | nra]).
  split.
  - apply fl_ge_fixed; [exact Fa | lra].
  - apply fl_mono. lra.
Qed.

(** The confidence of the chat view lies between the floats 0.85 and 0.98. *)
Lemma confidence_range r :
  lit 85 2 <= uniform_float (lit 85 2) (lit 98 2) r /\
  uniform_float (lit 85 2) (lit 98 2) r <= lit 98 2.
Proof.
  destruct (uniform_float_range (lit 85 2) (lit 98 2) r) as [H1 H2].
  - vm_compute. reflexivity.
  - vm_compute. discriminate.
  - vm_compute. reflexivity.
  - split; [exact H1 |].
    assert (E : fl (lit 85 2 + fl (lit 98 2 - lit 85 2)) <= lit 98 2)
      by (vm_compute; discriminate).
    eapply Qle_trans; [exact H2 | exact E].
Qed.

End FloatRanges.

(** ** Facts on the effects *)

Lemma bind_Ok {A B} (m : M A) (k : A -> M B) w a w1 :
  m w = (Ok a, w1) -> bind m k w = k a w1.
Proof. intros H. unfold bind. rewrite H. reflexivity. Qed.

Lemma bind_Raise {A B} (m : M A) (k : A -> M B) w e w1 :
  m w = (Raise e, w1) -> bind m k w = (Raise e, w1).
Proof. intros H. unfold bind. rewrite H. reflexivity. Qed.

Lemma skip_skip a b c d w : skip a b (skip c d w) = skip (a + c) (b + d) w.
Proof. unfold skip. cbn. f_equal; lia. Qed.

Lemma mod_range (r n : Z) : (0 < n)%Z -> (0 <= r mod n < n)%Z.
Proof. intros. apply Z.mod_pos_bound. assumption. Qed.

Lemma randint_range (a b r : Z) :
  (a <= b)%Z -> (a <= a + r mod (b - a + 1) <= b)%Z.
Proof. intros H. pose proof (mod_range r (b - a + 1)). lia. Qed.

Lemma random_randint_eq a b w :
  (a <= b)%Z ->
  random_randint a b w
  = (Ok (a + Z.of_N (rand w (rand_pos w)) mod (b - a + 1))%Z, tick_rand w).
Proof.
  intros H. unfold random_randint.
  destruct (Z.ltb_spec b a); [lia | reflexivity].
Qed.

(** [random.choice] on a non-empty sequence returns one of its items. *)
Lemma choice_elem {A} (x : A) (l : list A) (r : Z) :
  nth (Z.to_nat (r mod Z.of_nat (length (x :: l)))) (x :: l) x ∈ x :: l.
Proof.
  apply list_elem_of_In, nth_In.
  pose proof (mod_range r (Z.of_nat (length (x :: l)))) as H.
  cbn [length] in *. lia.
Qed.

Lemma generate_worker_spec i w :
  exists v,
    generate_worker i w = (Ok v, skip 5 1 w) /\
    is_worker (clock w) (clock_pos w) (S (clock_pos w)) i v.
Proof.
  eexists. split; [reflexivity |].
  eexists _, _, _, _, (clock_pos w), _. split; [reflexivity |].
  split; [apply randint_range; lia |].
  split; [apply (choice_elem "Zone A") |].
  split; [apply (choice_elem "Safe") |].
  split; [lia | apply randint_range; lia].
Qed.

Lemma is_worker_weaken ck lo hi lo' hi' i v :
  (lo' <= lo)%nat -> (hi <= hi')%nat ->
  is_worker ck lo hi i v -> is_worker ck lo' hi' i v.
Proof.
  intros Hlo Hhi (age & zone & status & ppe & k & days & E & Ha & Hz & Hs & Hk & Hd).
  exists age, zone, status, ppe, k, days. repeat split; try assumption; lia.
Qed.

(** The loop of [generate_mock_workers] over any range: one record per index,
    five draws and one clock reading each, no object touched. *)
Lemma mapM_generate_worker l w :
  exists ws,
    mapM generate_worker l w = (Ok ws, skip (5 * length l) (length l) w) /\
    Forall2 (is_worker (clock w) (clock_pos w) (length l + clock_pos w)) l ws.
Proof.
  revert w. induction l as [| i l IH]; intros w.
  - exists []. split; [| constructor].
    cbn. unfold ret, skip. destruct w; reflexivity.
  - destruct (generate_worker_spec i w) as (v & Ev & Hv).
    destruct (IH (skip 5 1 w)) as (ws & Ews & Hws).
    exists (v :: ws). split.
    + cbn [mapM]. rewrite (bind_Ok _ _ _ _ _ Ev), (bind_Ok _ _ _ _ _ Ews).
      unfold ret. rewrite skip_skip. do 2 f_equal; cbn [length]; lia.
    + constructor.
      * eapply is_worker_weaken; [| | exact Hv]; cbn [length]; lia.
      * eapply Forall2_impl; [exact Hws |].
        intros i' v' H. eapply is_worker_weaken; [| | exact H];
          cbn [skip clock_pos length]; lia.
Qed.

Lemma fresh_lookup (h : gmap loc pyval) : h !! fresh (dom h) = None.
Proof. apply not_elem_of_dom, is_fresh. Qed.

Lemma lookup_ne_of_None (h : gmap loc pyval) (l l' : loc) :
  h !! l = None -> is_Some (h !! l') -> l ≠ l'.
Proof. intros H [v Hv] ->. congruence. Qed.

(** What the constructor leaves behind: the four objects of the store hold
    the roster and the literals, every object that existed before is as it
    was, and 250 draws and 50 clock readings were consumed. *)
Lemma boot_spec w0 :
  let pd := fst (boot w0) in
  let w1 := snd (boot w0) in
  PlantDataStore_init w0 = (Ok pd, w1) /\
  exists ws,
    store_at pd ws w1 /\
    Forall2 (is_worker (clock w0) (clock_pos w0) (50 + clock_pos w0))
            (py_range 1 51) ws /\
    (forall l, is_Some (heap w0 !! l) -> heap w1 !! l = heap w0 !! l) /\
    rand w1 = rand w0 /\ clock w1 = clock w0 /\
    rand_pos w1 = (250 + rand_pos w0)%nat /\
    clock_pos w1 = (50 + clock_pos w0)%nat /\
    frontend_index w1 = frontend_index w0.
Proof.
  unfold boot, PlantDataStore_init, generate_mock_workers.
  destruct (mapM_generate_worker (py_range 1 51) w0) as (ws & E & H).
  rewrite (bind_Ok _ _ _ _ _ E).
  change (length (py_range 1 51)) with 50%nat in *.
  unfold bind, alloc, generate_mock_schedules, ret, set_heap.
  cbn [fst snd heap rand rand_pos clock clock_pos frontend_index skip
       workers safety_violations production_metrics schedules].
  set (h0 := heap w0).
  set (l1 := fresh (dom h0)). set (h1 := <[l1 := PList ws]> h0).
  set (l2 := fresh (dom h1)). set (h2 := <[l2 := PList []]> h1).
  set (l3 := fresh (dom h2)). set (h3 := <[l3 := baseline_metrics]> h2).
  set (l4 := fresh (dom h3)).
  pose proof (fresh_lookup h0) as F1. fold l1 in F1.
  pose proof (fresh_lookup h1) as F2. fold l2 in F2.
  pose proof (fresh_lookup h2) as F3. fold l3 in F3.
  pose proof (fresh_lookup h3) as F4. fold l4 in F4.
  assert (N12 : l2 ≠ l1).
  { apply (lookup_ne_of_None h1); [exact F2 |]. unfold h1. rewrite lookup_insert_eq. eauto. }
  assert (N23 : l3 ≠ l2).
  { apply (lookup_ne_of_None h2); [exact F3 |]. unfold h2. rewrite lookup_insert_eq. eauto. }
  assert (N34 : l4 ≠ l3).
  { apply (lookup_ne_of_None h3); [exact F4 |]. unfold h3. rewrite lookup_insert_eq. eauto. }
  assert (N13 : l3 ≠ l1).
  { apply (lookup_ne_of_None h2); [exact F3 |]. unfold h2, h1.
    rewrite lookup_insert_ne, lookup_insert_eq by congruence. eauto. }
  assert (N24 : l4 ≠ l2).
  { apply (lookup_ne_of_None h3); [exact F4 |]. unfold h3, h2.
    rewrite lookup_insert_ne, lookup_insert_eq by congruence. eauto. }
  assert (N14 : l4 ≠ l1).
  { apply (lookup_ne_of_None h3); [exact F4 |]. unfold h3, h2, h1.
    rewrite !lookup_insert_ne, lookup_insert_eq by congruence. eauto. }
  split; [reflexivity |].
  exists ws. split; [| split; [exact H | split; [| repeat split]]].
  - unfold store_at, h3, h2, h1. cbn [workers safety_violations production_metrics schedules].
    cbn [heap]. repeat split.
    + rewrite !lookup_insert_ne, lookup_insert_eq by congruence. reflexivity.
    + rewrite !lookup_insert_ne, lookup_insert_eq by congruence. reflexivity.
    + rewrite !lookup_insert_ne, lookup_insert_eq by congruence. reflexivity.
    + rewrite lookup_insert_eq. reflexivity.
  - intros l Hl.
    assert (l1 ≠ l) by (apply (lookup_ne_of_None h0); assumption).
    assert (Hl1 : is_Some (h1 !! l)) by (unfold h1; rewrite lookup_insert_ne by assumption; exact Hl).
    assert (l2 ≠ l) by (apply (lookup_ne_of_None h1); assumption).
    assert (Hl2 : is_Some (h2 !! l)) by (unfold h2; rewrite lookup_insert_ne by assumption; exact Hl1).
    assert (l3 ≠ l) by (apply (lookup_ne_of_None h2); assumption).
    assert (Hl3 : is_Some (h3 !! l)) by (unfold h3; rewrite lookup_insert_ne by assumption; exact Hl2).
    assert (l4 ≠ l) by (apply (lookup_ne_of_None h3); assumption).
    cbn [heap]. unfold h3, h2, h1. rewrite !lookup_insert_ne by assumption. reflexivity.
Qed.

(** *** Code that only reads *)

Create HintDb effects.

Lemma reads_only_ret {A} (a : A) : reads_only (ret a).
Proof. intros w. cbn. repeat split; lia. Qed.

Lemma reads_only_raise {A} e : reads_only (@raise A e).
Proof. intros w. cbn. repeat split; lia. Qed.

Lemma reads_only_lift {A} (r : result A) : reads_only (lift r).
Proof. intros w. cbn. repeat split; lia. Qed.

Lemma reads_only_bind {A B} (m : M A) (k : A -> M B) :
  reads_only m -> (forall a, reads_only (k a)) -> reads_only (bind m k).
Proof.
  intros Hm Hk w. unfold bind. specialize (Hm w).
  destruct (m w) as [[a | e] w1]; cbn [snd] in *.
  - specialize (Hk a w1). destruct Hm as (? & ? & ? & ? & ? & ?).
    destruct Hk as (? & ? & ? & ? & ? & ?). repeat split; try congruence; lia.
  - exact Hm.
Qed.

Lemma reads_only_now : reads_only now.
Proof. intros w. cbn. repeat split; lia. Qed.

Lemma reads_only_next_raw : reads_only next_raw.
Proof. intros w. cbn. repeat split; lia. Qed.

Lemma reads_only_load l : reads_only (load l).
Proof. intros w. unfold load. destruct (heap w !! l); cbn; repeat split; lia. Qed.

Lemma reads_only_read_frontend_index : reads_only read_frontend_index.
Proof.
  intros w. unfold read_frontend_index.
  destruct (frontend_index w) eqn:E; cbn; repeat split; try assumption; lia.
Qed.

Lemma reads_only_except {A} (m h : M A) :
  reads_only m -> reads_only h -> reads_only (except_FileNotFoundError m h).
Proof.
  intros Hm Hh w. unfold except_FileNotFoundError. specialize (Hm w).
  destruct (m w) as [[a | e] w1]; cbn [snd] in *; [exact Hm |].
  destruct e; try exact Hm.
  specialize (Hh w1). destruct Hm as (? & ? & ? & ? & ? & ?).
  destruct Hh as (? & ? & ? & ? & ? & ?). repeat split; try congruence; lia.
Qed.

#[local] Hint Resolve reads_only_ret reads_only_raise reads_only_lift
  reads_only_now reads_only_next_raw reads_only_load
  reads_only_read_frontend_index : effects.

Ltac reads_only_tac :=
  repeat first
    [ apply reads_only_bind; [| intros ?]
    | apply reads_only_except
    | solve [auto with effects] ].

Lemma reads_only_randbelow n : reads_only (randbelow n).
Proof. unfold randbelow. reads_only_tac. Qed.

Lemma reads_only_randint a b : reads_only (random_randint a b).
Proof.
  unfold random_randint. destruct (b <? a)%Z; [auto with effects |].
  apply reads_only_bind; [apply reads_only_randbelow | auto with effects].
Qed.

Lemma reads_only_choice {A} (l : list A) : reads_only (random_choice l).
Proof.
  unfold random_choice. destruct l; [auto with effects |].
  apply reads_only_bind; [apply reads_only_randbelow | auto with effects].
Qed.

Lemma reads_only_random : reads_only random_random.
Proof. unfold random_random. reads_only_tac. Qed.

Lemma reads_only_uniform a b : reads_only (random_uniform a b).
Proof.
  unfold random_uniform.
  apply reads_only_bind; [auto with effects | intros ?].
  apply reads_only_bind; [apply reads_only_random | intros ?].
  reads_only_tac.
Qed.

#[local] Hint Resolve reads_only_randbelow reads_only_randint reads_only_choice
  reads_only_random reads_only_uniform : effects.

Lemma reads_only_continues {A} (m : M A) w :
  reads_only m -> continues w (snd (m w)).
Proof.
  intros H. destruct (H w) as (Hh & ? & ? & ? & ? & ?).
  repeat split; try assumption. intros l _. rewrite Hh. reflexivity.
Qed.

Lemma continues_refl w : continues w w.
Proof. repeat split; try lia. Qed.

Lemma continues_trans w1 w2 w3 :
  continues w1 w2 -> continues w2 w3 -> continues w1 w3.
Proof.
  intros (R1 & C1 & F1 & P1 & Q1 & H1) (R2 & C2 & F2 & P2 & Q2 & H2).
  repeat split; try congruence; try lia.
  intros l Hl. rewrite <- (H1 l Hl). apply H2. rewrite (H1 l Hl). exact Hl.
Qed.

Lemma continues_store_at pd ws w w' :
  continues w w' -> store_at pd ws w -> store_at pd ws w'.
Proof.
  intros (_ & _ & _ & _ & _ & H) (Hw & Hv & Hm & Hs).
  repeat split; (rewrite H; [assumption | eauto]).
Qed.

(** *** The views, computed *)

Lemma load_eq l v w : heap w !! l = Some v -> load l w = (Ok v, w).
Proof. intros H. unfold load. rewrite H. reflexivity. Qed.

Lemma iadd_item_eq l k e w d old x w1 new :
  heap w !! l = Some (PDict d) ->
  dict_get k d = Some old ->
  e w = (Ok x, w1) ->
  heap w1 = heap w ->
  py_add old x = Ok new ->
  iadd_item l k e w
  = (Ok tt, set_heap (<[l := PDict (dict_set k new d)]> (heap w)) w1).
Proof.
  intros Hl Hk He Hh Ha. unfold iadd_item.
  rewrite (bind_Ok _ _ _ _ _ (load_eq _ _ _ Hl)).
  unfold lift at 1. unfold getitem. rewrite Hk.
  unfold bind at 1. rewrite (bind_Ok _ _ _ _ _ He).
  unfold lift at 1. rewrite Ha. unfold bind at 1.
  unfold setitem. rewrite <- Hh in Hl. rewrite (bind_Ok _ _ _ _ _ (load_eq _ _ _ Hl)).
  unfold store. rewrite Hh. reflexivity.
Qed.

Lemma get_operations_metrics_eq pd ws w :
  store_at pd ws w ->
  exists w',
    get_operations_metrics pd w
    = (Ok (jsonify (PDict [
         ("status", PStr "success");
         ("data", metrics_data w);
         ("timestamp", PStr (isoformat (clock w (clock_pos w))))])), w') /\
    continues w w' /\
    clock_pos w' = S (clock_pos w) /\ rand_pos w' = (3 + rand_pos w)%nat.
Proof.
  intros (Hw & Hv & Hm & Hs).
  set (l := fresh (dom (heap w))).
  assert (Hc : py_copy (production_metrics pd) w
               = (Ok l, set_heap (<[l := baseline_metrics]> (heap w)) w)).
  { unfold py_copy. rewrite (bind_Ok _ _ _ _ _ (load_eq _ _ _ Hm)). reflexivity. }
  unfold get_operations_metrics.
  rewrite (bind_Ok _ _ _ _ _ Hc).
  erewrite bind_Ok.
  2: { eapply iadd_item_eq; [apply lookup_insert_eq | reflexivity | reflexivity | reflexivity | reflexivity]. }
  erewrite bind_Ok.
  2: { eapply iadd_item_eq; [apply lookup_insert_eq | reflexivity | reflexivity | reflexivity | reflexivity]. }
  erewrite bind_Ok.
  2: { eapply iadd_item_eq; [apply lookup_insert_eq | reflexivity | reflexivity | reflexivity | reflexivity]. }
  erewrite bind_Ok.
  2: { apply load_eq. apply lookup_insert_eq. }
  unfold bind, now, ret.
  cbn [snd heap rand rand_pos clock clock_pos frontend_index
       set_heap tick_rand tick_clock].
  eexists. split; [reflexivity |].
  unfold continues.
  cbn [snd heap rand rand_pos clock clock_pos frontend_index
       set_heap tick_rand tick_clock].
  split; [| split; reflexivity].
  repeat split; try lia.
  intros l' Hl'.
  assert (l <> l') by (apply (lookup_ne_of_None (heap w)); [apply fresh_lookup | exact Hl']).
  rewrite !lookup_insert_ne by assumption. reflexivity.
Qed.

Lemma filterR_key k (f : pyval -> bool) l :
  Forall (fun v => exists x, getitem v k = Ok x) l ->
  filterR (fun w => rbind (getitem w k) (fun v => Ok (f v))) l
  = Ok (List.filter
          (fun w => match getitem w k with Ok v => f v | Raise _ => false end) l).
Proof.
  induction 1 as [| v l [x Hx] _ IH]; [reflexivity |].
  cbn [filterR List.filter]. rewrite Hx, IH. cbn [rbind]. reflexivity.
Qed.

Lemma percentage_eq a b :
  b <> 0%Z -> percentage a b = Ok (PFloat (percentage_value a b)).
Proof.
  intros Hb. unfold percentage, py_truediv. cbn [as_int rbind].
  destruct (Z.eqb_spec b 0); [contradiction | reflexivity].
Qed.

Lemma get_worker_safety_status_eq pd ws w :
  heap w !! workers pd = Some (PList ws) ->
  Forall worker_like ws -> ws <> [] ->
  get_worker_safety_status pd w
  = (Ok (jsonify (PDict [
       ("status", PStr "success");
       ("data", safety_data ws);
       ("timestamp", PStr (isoformat (clock w (clock_pos w))))])),
     tick_clock w).
Proof.
  intros Hw Hl Hne. unfold get_worker_safety_status.
  rewrite (bind_Ok _ _ _ _ _ (load_eq _ _ _ Hw)).
  assert (Hn : Z.of_nat (length ws) <> 0%Z) by (destruct ws; [congruence | cbn; lia]).
  unfold count_comp. cbn [py_len py_iter py_slice_to rbind].
  rewrite !filterR_key by (eapply Forall_impl; [exact Hl | intros v [? ?]; assumption]).
  cbn [rbind]. unfold lift, bind.
  rewrite !percentage_eq by exact Hn.
  reflexivity.
Qed.

(** *** The whole run *)

Section HandlerFacts.
Variable py_repr : pyval -> string.
Variable pd : PlantDataStore.

Lemma reads_only_handle ep rq :
  ep <> OperationsMetrics -> reads_only (handle py_repr pd ep rq).
Proof.
  intros Hep. destruct ep; try congruence; cbn [handle].
  - unfold index. reads_only_tac.
  - unfold health_check. reads_only_tac.
  - unfold get_worker_safety_status. reads_only_tac.
  - unfold get_safety_violations. reads_only_tac.
  - unfold get_current_schedule. reads_only_tac.
  - unfold optimize_schedule. reads_only_tac.
  - unfold get_compliance_status. reads_only_tac.
  - unfold ai_chat. reads_only_tac.
  - unfold generate_safety_report. reads_only_tac.
  - unfold emergency_stop. reads_only_tac.
Qed.

Lemma handle_continues ws ep rq w :
  store_at pd ws w -> continues w (snd (handle py_repr pd ep rq w)).
Proof.
  intros Hst. destruct (decide (ep = OperationsMetrics)) as [-> | Hne].
  - destruct (get_operations_metrics_eq pd ws w Hst) as (w' & E & Hc & _).
    cbn [handle]. rewrite E. exact Hc.
  - apply reads_only_continues, reads_only_handle, Hne.
Qed.

Lemma serve_world ep rq w :
  snd (serve py_repr pd ep rq w) = snd (handle py_repr pd ep rq w).
Proof. unfold serve. destruct (handle py_repr pd ep rq w) as [[r | e] w']; reflexivity. Qed.

Lemma serve_all_continues ws reqs w :
  store_at pd ws w ->
  continues w (snd (serve_all py_repr pd reqs w)) /\
  store_at pd ws (snd (serve_all py_repr pd reqs w)).
Proof.
  revert w. induction reqs as [| [ep rq] reqs IH]; intros w Hst.
  - split; [apply continues_refl | exact Hst].
  - cbn [serve_all].
    pose proof (handle_continues ws ep rq w Hst) as Hc.
    rewrite <- serve_world in Hc.
    destruct (serve py_repr pd ep rq w) as [r w1]. cbn [snd] in Hc.
    pose proof (continues_store_at _ _ _ _ Hc Hst) as Hst1.
    destruct (IH w1 Hst1) as [Hc2 Hst2].
    destruct (serve_all py_repr pd reqs w1) as [rs w2]. cbn [snd] in *.
    split; [eapply continues_trans; eassumption | exact Hst2].
Qed.
End HandlerFacts.

(** *** The running server *)

Lemma is_worker_ids ck lo hi l ws :
  Forall2 (is_worker ck lo hi) l ws ->
  map (fun v => getitem v "id") ws = map worker_id l.
Proof.
  induction 1 as [| i v l ws Hv _ IH]; [reflexivity |].
  cbn [map]. rewrite IH. f_equal.
  destruct Hv as (? & ? & ? & ? & ? & ? & -> & _). reflexivity.
Qed.

Lemma is_worker_like ck lo hi i v : is_worker ck lo hi i v -> worker_like v.
Proof.
  intros (? & ? & ? & ? & ? & ? & -> & _). split; eexists; reflexivity.
Qed.

Lemma is_worker_roster_like ck lo hi l ws :
  Forall2 (is_worker ck lo hi) l ws -> Forall worker_like ws.
Proof.
  induction 1; constructor; [eapply is_worker_like; eassumption | assumption].
Qed.

Lemma roster_length {A B} (P : A -> B -> Prop) l ws :
  Forall2 P l ws -> length ws = length l.
Proof. intros H. symmetry. eapply Forall2_length, H. Qed.

(** The state of a running server: the store holds the roster made at the
    start and the two literals, whatever requests were served. *)
Lemma run_spec py_repr w0 reqs :
  exists ws,
    store_at (plant w0) ws (started w0) /\
    store_at (plant w0) ws (after py_repr w0 reqs) /\
    Forall2 (is_worker (clock w0) (clock_pos w0) (50 + clock_pos w0))
            (py_range 1 51) ws /\
    continues (started w0) (after py_repr w0 reqs).
Proof.
  destruct (boot_spec w0) as (_ & ws & Hst & Hws & _).
  exists ws. fold (plant w0) (started w0) in Hst.
  destruct (serve_all_continues py_repr (plant w0) ws reqs (started w0) Hst) as [Hc Hst'].
  split; [exact Hst | split; [exact Hst' | split; [exact Hws | exact Hc]]].
Qed.

Lemma serve_safety_workers py_repr pd ws rq w :
  heap w !! workers pd = Some (PList ws) ->
  Forall worker_like ws -> ws <> [] ->
  serve py_repr pd SafetyWorkers rq w
  = (jsonify (PDict [
       ("status", PStr "success");
       ("data", safety_data ws);
       ("timestamp", PStr (isoformat (clock w (clock_pos w))))]),
     tick_clock w).
Proof.
  intros Hw Hl Hne. unfold serve. cbn [handle].
  rewrite (get_worker_safety_status_eq pd ws w Hw Hl Hne). reflexivity.
Qed.

Lemma serve_operations_metrics py_repr pd ws rq w :
  store_at pd ws w ->
  fst (serve py_repr pd OperationsMetrics rq w)
  = jsonify (PDict [
      ("status", PStr "success");
      ("data", metrics_data w);
      ("timestamp", PStr (isoformat (clock w (clock_pos w))))]) /\
  continues w (snd (serve py_repr pd OperationsMetrics rq w)) /\
  clock_pos (snd (serve py_repr pd OperationsMetrics rq w)) = S (clock_pos w).
Proof.
  intros Hst.
  destruct (get_operations_metrics_eq pd ws w Hst) as (w' & E & Hc & Hp & _).
  unfold serve. cbn [handle]. rewrite E.
  split; [reflexivity | split; [exact Hc | exact Hp]].
Qed.

Lemma count_range p ws : (0 <= count p ws <= Z.of_nat (length ws))%Z.
Proof. unfold count. pose proof (List.filter_length_le p ws). lia. Qed.

Lemma hour_range d : (0 <= hour d < 24)%Z.
Proof.
  unfold hour, us_per_day, us_per_hour.
  pose proof (mod_range (dt_us d) 86400000000 eq_refl) as H.
  split.
  - apply Z.div_pos; lia.
  - apply Z.div_lt_upper_bound; lia.
Qed.

Lemma current_shift_of_band h : current_shift_of h = shift_by_band h.
Proof.
  unfold current_shift_of, shift_by_band.
  repeat case_decide;
    destruct (Z.leb_spec 6 h); destruct (Z.ltb_spec h 14);
    destruct (Z.leb_spec 14 h); destruct (Z.ltb_spec h 22);
    cbn [andb]; try reflexivity; lia.
Qed.

Lemma get_current_schedule_eq pd sch w :
  heap w !! schedules pd = Some sch ->
  get_current_schedule pd w
  = (Ok (jsonify (PDict [
       ("status", PStr "success");
       ("data", PDict [
          ("schedules", sch);
          ("current_shift", PStr (current_shift_of (hour (clock w (clock_pos w)))));
          ("current_time", PStr (strftime_HM (clock w (1 + clock_pos w))))]);
       ("timestamp", PStr (isoformat (clock w (2 + clock_pos w))))])),
     skip 0 3 w).
Proof.
  intros Hs. unfold get_current_schedule, bind, now, load, ret.
  cbn [heap tick_clock clock clock_pos]. rewrite Hs. reflexivity.
Qed.

(** *** Text *)

Lemma prefix_append (s q : string) : String.prefix s (s +:+ q) = true.
Proof.
  induction s as [| c s IH]; simpl.
  - destruct q; reflexivity.
  - destruct (Ascii.ascii_dec c c); [exact IH | congruence].
Qed.

Lemma is_infix_at_prefix (s t : string) :
  String.prefix s t = true -> is_infix_at s t = true.
Proof. intros H. destruct t; cbn [is_infix_at]; rewrite H; reflexivity. Qed.

(** A text put between two others is found in the whole. *)
Lemma contains_middle (p s q : string) : contains (p +:+ s +:+ q) s = true.
Proof.
  unfold contains. induction p as [| c p IH].
  - change ("" +:+ s +:+ q) with (s +:+ q).
    apply is_infix_at_prefix, prefix_append.
  - change (String c p +:+ s +:+ q) with (String c (p +:+ s +:+ q)).
    cbn [is_infix_at]. rewrite IH. apply orb_true_r.
Qed.

Lemma ai_responses_contain m resp :
  resp ∈ ai_responses m -> contains resp m = true.
Proof.
  unfold ai_responses. intros H.
  repeat (apply elem_of_cons in H as [-> | H]; [apply contains_middle |]).
  apply elem_of_nil in H. contradiction.
Qed.

(** *** The views that read the request body *)

Lemma request_json_errors rq e :
  request_json rq = Raise e -> e = BadRequest \/ e = UnsupportedMediaType.
Proof.
  unfold request_json. destruct (json_content_type rq); [| intros [= <-]; auto].
  destruct (req_data rq); intros [= <-]; auto.
Qed.

Lemma request_json_no_body rq :
  (req_data rq = NoBody \/ exists raw, req_data rq = Malformed raw) ->
  exists e, request_json rq = Raise e.
Proof.
  unfold request_json. intros [H | [raw H]]; rewrite H;
    destruct (json_content_type rq); eauto.
Qed.

Section BodyViews.
Variable py_repr : pyval -> string.
Variable pd : PlantDataStore.

Lemma ai_chat_eq rq d w :
  request_json rq = Ok (PDict d) ->
  let user_message := default (PStr "") (dict_get "message" d) in
  let m := py_str py_repr user_message in
  ai_chat py_repr rq w
  = (Ok (jsonify (PDict [
       ("status", PStr "success");
       ("data", PDict [
          ("user_message", user_message);
          ("ai_response",
           PStr (nth (Z.to_nat (draw w 0 mod 6)) (ai_responses m)
                     (hd "" (ai_responses m))));
          ("confidence",
           PFloat (uniform_float (Float64.lit 85 2) (Float64.lit 98 2) (raw w 1)));
          ("suggestions", strs chat_suggestions)]);
       ("timestamp", PStr (isoformat (clock w (clock_pos w))))])),
     skip 2 1 w).
Proof.
  intros H um m. unfold ai_chat.
  cbv beta iota delta [bind lift]. rewrite H. reflexivity.
Qed.

Lemma generate_safety_report_eq rq d w :
  request_json rq = Ok (PDict d) ->
  exists summary,
  generate_safety_report rq w
  = (Ok (jsonify (PDict [
       ("status", PStr "success");
       ("message", PStr "Safety report generated successfully");
       ("data", PDict [
          ("report_id", PStr ("RPT_" +:+ strftime_Ymd_HMS (clock w (clock_pos w))));
          ("period", default (PStr "daily") (dict_get "period" d));
          ("summary", summary);
          ("recommendations", strs [
             "Increase safety training frequency in Zone B";
             "Install additional PPE monitoring cameras";
             "Implement reward system for safety compliance"]);
          ("generated_at", PStr (isoformat (clock w (1 + clock_pos w))))]);
       ("download_url",
        PStr ("/api/reports/download/" +:+ ("RPT_" +:+ strftime_Ymd_HMS (clock w (clock_pos w)))))])),
     skip 4 2 w).
Proof.
  intros H. eexists. unfold generate_safety_report.
  cbv beta iota delta [bind lift now]. rewrite H. reflexivity.
Qed.

Lemma emergency_stop_eq rq d w :
  request_json rq = Ok (PDict d) ->
  emergency_stop rq w
  = (Ok (jsonify (PDict [
       ("status", PStr "success");
       ("message", PStr "Emergency stop activated successfully");
       ("data", PDict [
          ("stop_id", PStr ("ESTOP_" +:+ strftime_Ymd_HMS (clock w (clock_pos w))));
          ("initiated_by", default (PStr "system") (dict_get "user_id" d));
          ("reason", default (PStr "Manual emergency stop") (dict_get "reason" d));
          ("affected_systems", strs [
             "Production Line 1";
             "Production Line 2";
             "Kiln Operations";
             "Conveyor Systems"]);
          ("response_time", PStr "< 5 seconds");
          ("status", PStr "emergency_stop_active")]);
       ("timestamp", PStr (isoformat (clock w (1 + clock_pos w))))])),
     skip 0 2 w).
Proof.
  intros H. unfold emergency_stop.
  cbv beta iota delta [bind lift now]. rewrite H. reflexivity.
Qed.

Lemma serve_post_raises ep rq e w :
  reads_body ep = true -> request_json rq = Raise e ->
  fst (serve py_repr pd ep rq w) = Response (ErrorPage e) (http_status e).
Proof.
  intros Hep H. destruct ep; try discriminate; unfold serve; cbn [handle].
  - unfold ai_chat. cbv beta iota delta [bind lift]. rewrite H. reflexivity.
  - unfold generate_safety_report. cbv beta iota delta [bind lift now]. rewrite H. reflexivity.
  - unfold emergency_stop. cbv beta iota delta [bind lift now]. rewrite H. reflexivity.
Qed.

Lemma serve_post_not_object ep rq v w :
  reads_body ep = true -> request_json rq = Ok v -> (forall d, v <> PDict d) ->
  fst (serve py_repr pd ep rq w) = Response (ErrorPage AttributeError) 500.
Proof.
  intros Hep H Hv.
  assert (Hg : forall k dflt, py_get v k dflt = Raise AttributeError).
  { intros k dflt. destruct v; try reflexivity. exfalso. eapply Hv. reflexivity. }
  destruct ep; try discriminate; unfold serve; cbn [handle].
  - unfold ai_chat. cbv beta iota delta [bind lift]. rewrite H, Hg. reflexivity.
  - unfold generate_safety_report. cbv beta iota delta [bind lift now]. rewrite H, Hg. reflexivity.
  - unfold emergency_stop. cbv beta iota delta [bind lift now]. rewrite H, Hg. reflexivity.
Qed.

End BodyViews.

(** ** The claims *)

(** C1: whatever requests a process has served since its start, the objects
    of the store (the worker list, the shift records, the metrics baseline)
    and every other object alive at the start hold what they held right after
    the start: no view writes into them. Two consecutive calls of the
    worker-safety view then both report [total_workers = 50] and the same
    first ten identifiers, [W1001] to [W1010]. *)
Theorem store_never_written py_repr w0 reqs rq1 rq2 :
  let pd := plant w0 in
  let w := after py_repr w0 reqs in
  (heap w !! workers pd = heap (started w0) !! workers pd /\
   is_Some (heap w !! workers pd) /\
   heap w !! schedules pd = Some shift_records /\
   heap (started w0) !! schedules pd = Some shift_records /\
   heap w !! production_metrics pd = Some baseline_metrics /\
   heap (started w0) !! production_metrics pd = Some baseline_metrics /\
   forall l, is_Some (heap (started w0) !! l) ->
             heap w !! l = heap (started w0) !! l) /\
  let r1 := fst (serve py_repr pd SafetyWorkers rq1 w) in
  let w' := snd (serve py_repr pd SafetyWorkers rq1 w) in
  let r2 := fst (serve py_repr pd SafetyWorkers rq2 w') in
  resp_at ["data"; "statistics"; "total_workers"] r1 = Some (PInt 50) /\
  resp_at ["data"; "statistics"; "total_workers"] r2 = Some (PInt 50) /\
  response_worker_ids r1 = Some (map worker_id (py_range 1 11)) /\
  response_worker_ids r2 = Some (map worker_id (py_range 1 11)).
Proof.
  intros pd w.
  destruct (run_spec py_repr w0 reqs) as (ws & Hst0 & Hst & Hws & Hc).
  fold pd w in Hst0, Hst, Hc.
  pose proof Hst0 as (Hw0 & _ & Hm0 & Hs0). pose proof Hst as (Hw & _ & Hm & Hs).
  split.
  { rewrite Hw, Hw0. repeat split; eauto. apply Hc. }
  pose proof (roster_length _ _ _ Hws) as Hlen.
  change (length (py_range 1 51)) with 50%nat in Hlen.
  assert (Hne : ws <> []) by (intros ->; discriminate).
  pose proof (is_worker_roster_like _ _ _ _ _ Hws) as Hlike.
  rewrite (serve_safety_workers py_repr pd ws rq1 w Hw Hlike Hne). cbn [fst snd].
  rewrite (serve_safety_workers py_repr pd ws rq2 (tick_clock w) Hw Hlike Hne). cbn [fst].
  assert (Hids : map (fun v => getitem v "id") (take 10 ws) = map worker_id (py_range 1 11)).
  { apply (is_worker_ids (clock w0) (clock_pos w0) (50 + clock_pos w0)).
    change (py_range 1 11) with (take 10 (py_range 1 51)).
    apply Forall2_take, Hws. }
  unfold response_worker_ids, resp_at, safety_data, safety_statistics.
  cbn [resp_json resp_body_of jsonify at_path dict_get String.eqb Ascii.eqb Bool.eqb mbind option_bind].
  rewrite Hlen, Hids. repeat split; reflexivity.
Qed.

(** C2: in a running process every call of the metrics view answers with a
    copy of the stored baseline in which [production_rate] is the baseline
    plus an int in [[-50, 50]], [efficiency] the baseline plus a float in
    [[-2, 2]] and [temperature] the baseline plus an int in [[-20, 20]], while
    [energy_consumption] and [co2_emissions] are the baseline's; the stored
    baseline itself is the same before and after the call. This holds for
    every generator and every history of requests. *)
Theorem metrics_perturbation_bounds py_repr w0 reqs rq :
  let pd := plant w0 in
  let w := after py_repr w0 reqs in
  let r := fst (serve py_repr pd OperationsMetrics rq w) in
  let w' := snd (serve py_repr pd OperationsMetrics rq w) in
  heap w !! production_metrics pd = Some baseline_metrics /\
  heap w' !! production_metrics pd = Some baseline_metrics /\
  status_code r = 200%Z /\
  exists (d1 d3 : Z) (d2 : Q) (data : pyval),
    resp_at ["data"] r = Some data /\
    (-50 <= d1 <= 50)%Z /\ (- (2) <= d2 /\ d2 <= 2)%Q /\ (-20 <= d3 <= 20)%Z /\
    data = PDict [
      ("production_rate", PInt (2450 + d1));
      ("efficiency", PFloat (Float64.fl (Float64.lit 873 1 + d2)));
      ("temperature", PInt (1480 + d3));
      ("energy_consumption", PFloat (Float64.lit 852 1));
      ("co2_emissions", PInt (-12))] /\
    getitem data "production_rate"
    = rbind (getitem baseline_metrics "production_rate") (fun b => py_add b (PInt d1)) /\
    getitem data "efficiency"
    = rbind (getitem baseline_metrics "efficiency") (fun b => py_add b (PFloat d2)) /\
    getitem data "temperature"
    = rbind (getitem baseline_metrics "temperature") (fun b => py_add b (PInt d3)) /\
    getitem data "energy_consumption" = getitem baseline_metrics "energy_consumption" /\
    getitem data "co2_emissions" = getitem baseline_metrics "co2_emissions".
Proof.
  intros pd w r w'.
  destruct (run_spec py_repr w0 reqs) as (ws & _ & Hst & _ & _).
  fold pd w in Hst.
  destruct (serve_operations_metrics py_repr pd ws rq w Hst) as (Er & Hc & _).
  fold r in Er. fold w' in Hc.
  pose proof (continues_store_at _ _ _ _ Hc Hst) as (_ & _ & Hm' & _).
  destruct Hst as (_ & _ & Hm & _).
  split; [exact Hm |]. split; [exact Hm' |]. rewrite Er.
  split; [reflexivity |].
  exists (-50 + draw w 0 mod 101)%Z, (-20 + draw w 2 mod 41)%Z,
         (efficiency_delta (raw w 1)), (metrics_data w).
  split; [reflexivity |].
  split; [pose proof (mod_range (draw w 0) 101); lia |].
  split; [apply efficiency_delta_range |].
  split; [pose proof (mod_range (draw w 2) 41); lia |].
  repeat split; reflexivity.
Qed.

(** The worker-safety view over any non-empty roster [ws] of worker records:
    the first [min 10 (length ws)] records and the statistics over [ws]. *)
Lemma worker_safety_over_roster py_repr rq pd ws w :
  heap w !! workers pd = Some (PList ws) ->
  Forall worker_like ws -> ws <> [] ->
  let r := fst (serve py_repr pd SafetyWorkers rq w) in
  let n := Z.of_nat (length ws) in
  status_code r = 200%Z /\
  resp_at ["data"; "workers"] r = Some (PList (take 10 ws)) /\
  response_worker_count r = Some (Nat.min 10 (length ws)) /\
  resp_at ["data"; "statistics"] r = Some (safety_statistics ws) /\
  (0 <= percentage_value (count ppe_compliant ws) n /\
   percentage_value (count ppe_compliant ws) n <= 100)%Q /\
  (0 <= percentage_value (count (status_is "Safe") ws) n /\
   percentage_value (count (status_is "Safe") ws) n <= 100)%Q.
Proof.
  intros Hw Hl Hne r n. unfold r.
  rewrite (serve_safety_workers py_repr pd ws rq w Hw Hl Hne). cbn [fst].
  assert (Hn : (0 < n)%Z) by (unfold n; destruct ws; [congruence | cbn; lia]).
  split; [reflexivity |]. split; [reflexivity |]. split.
  { unfold response_worker_count. cbn. rewrite length_take. reflexivity. }
  split; [reflexivity |].
  split; apply percentage_value_range; try exact Hn; apply count_range.
Qed.

(** C3: in a running process, whatever requests were served before, the
    roster of the store has 50 records and the worker-safety view answers
    with exactly ten worker records, the first ten of the roster in
    generation order, and with statistics computed over the full roster:
    [total_workers] is 50, [safe_workers] counts the status "Safe",
    [violations_today] counts the statuses "PPE Missing" and "Training
    Required", and [ppe_compliance_rate] and [safety_score] are the
    percentages of the PPE-compliant and of the safe workers among the 50,
    rounded to one decimal, each in [[0, 100]]. *)
Theorem worker_safety_first_ten_and_statistics py_repr w0 reqs rq :
  let pd := plant w0 in
  let w := after py_repr w0 reqs in
  let r := fst (serve py_repr pd SafetyWorkers rq w) in
  exists ws,
    heap w !! workers pd = Some (PList ws) /\ length ws = 50%nat /\
    status_code r = 200%Z /\
    response_worker_count r = Some 10%nat /\
    resp_at ["data"; "workers"] r = Some (PList (take 10 ws)) /\
    response_worker_ids r = Some (map worker_id (py_range 1 11)) /\
    resp_at ["data"; "statistics"] r = Some (safety_statistics ws) /\
    resp_at ["data"; "statistics"; "total_workers"] r = Some (PInt 50) /\
    resp_at ["data"; "statistics"; "safe_workers"] r
    = Some (PInt (count (status_is "Safe") ws)) /\
    resp_at ["data"; "statistics"; "violations_today"] r
    = Some (PInt (count (status_in ["PPE Missing"; "Training Required"]) ws)) /\
    resp_at ["data"; "statistics"; "ppe_compliance_rate"] r
    = Some (PFloat (percentage_value (count ppe_compliant ws) 50)) /\
    resp_at ["data"; "statistics"; "safety_score"] r
    = Some (PFloat (percentage_value (count (status_is "Safe") ws) 50)) /\
    (0 <= percentage_value (count ppe_compliant ws) 50 /\
     percentage_value (count ppe_compliant ws) 50 <= 100)%Q /\
    (0 <= percentage_value (count (status_is "Safe") ws) 50 /\
     percentage_value (count (status_is "Safe") ws) 50 <= 100)%Q.
Proof.
  intros pd w r.
  destruct (run_spec py_repr w0 reqs) as (ws & _ & (Hw & _) & Hws & _).
  pose proof (roster_length _ _ _ Hws) as Hlen.
  change (length (py_range 1 51)) with 50%nat in Hlen.
  assert (Hne : ws <> []) by (intros ->; discriminate).
  pose proof (is_worker_roster_like _ _ _ _ _ Hws) as Hlike.
  destruct (worker_safety_over_roster py_repr rq pd ws w Hw Hlike Hne)
    as (Hok & Hfirst & Hcount & Hstats & Hr1 & Hr2).
  fold r in Hok, Hfirst, Hcount, Hstats.
  rewrite Hlen in Hcount, Hr1, Hr2.
  assert (Hids : map (fun v => getitem v "id") (take 10 ws)
                 = map worker_id (py_range 1 11)).
  { apply (is_worker_ids (clock w0) (clock_pos w0) (50 + clock_pos w0)).
    change (py_range 1 11) with (take 10 (py_range 1 51)).
    apply Forall2_take, Hws. }
  assert (Hf : forall k, resp_at ["data"; "statistics"; k] r
                         = resp_at ["data"; "statistics"] r ≫= at_path [k]).
  { intros k. unfold resp_at. destruct (resp_json r) as [v |]; [| reflexivity].
    cbn [mbind option_bind at_path]. destruct v; try reflexivity.
    destruct (dict_get "data" d) as [v |]; [| reflexivity].
    cbn [mbind option_bind at_path]. destruct v; try reflexivity.
    destruct (dict_get "statistics" d0) as [v |]; reflexivity. }
  exists ws. split; [exact Hw |]. split; [exact Hlen |]. split; [exact Hok |].
  split; [exact Hcount |]. split; [exact Hfirst |].
  split; [unfold response_worker_ids; rewrite Hfirst, Hids; reflexivity |].
  split; [exact Hstats |].
  rewrite !Hf, Hstats. unfold safety_statistics. rewrite Hlen.
  split; [reflexivity |]. split; [reflexivity |]. split; [reflexivity |].
  split; [reflexivity |]. split; [reflexivity |].
  split; [exact Hr1 | exact Hr2].
Qed.

(** C4 (amended): when the body of a POST request is a JSON object, the chat,
    report and emergency-stop views succeed and a field that is missing takes
    its default ([message] the empty string, [period] "daily", [user_id]
    "system", [reason] "Manual emergency stop"). A request without a body or
    with a body that is not JSON makes [request.json] raise, and the view
    fails with status 400 or 415; a JSON body that is not an object makes it
    fail with status 500. *)
Theorem post_defaults_on_json_objects py_repr pd rq w :
  (forall d, request_json rq = Ok (PDict d) ->
     let chat := fst (serve py_repr pd AiChat rq w) in
     let report := fst (serve py_repr pd ReportsSafety rq w) in
     let stop := fst (serve py_repr pd EmergencyStop rq w) in
     status_code chat = 200%Z /\ status_code report = 200%Z /\
     status_code stop = 200%Z /\
     resp_at ["data"; "user_message"] chat
     = Some (default (PStr "") (dict_get "message" d)) /\
     resp_at ["data"; "period"] report
     = Some (default (PStr "daily") (dict_get "period" d)) /\
     resp_at ["data"; "initiated_by"] stop
     = Some (default (PStr "system") (dict_get "user_id" d)) /\
     resp_at ["data"; "reason"] stop
     = Some (default (PStr "Manual emergency stop") (dict_get "reason" d))) /\
  ((req_data rq = NoBody \/ exists raw, req_data rq = Malformed raw) ->
     exists e, request_json rq = Raise e) /\
  (forall e ep, request_json rq = Raise e -> reads_body ep = true ->
     (e = BadRequest \/ e = UnsupportedMediaType) /\
     fst (serve py_repr pd ep rq w) = Response (ErrorPage e) (http_status e) /\
     (http_status e = 400 \/ http_status e = 415)%Z) /\
  (forall v ep, request_json rq = Ok v -> (forall d, v <> PDict d) ->
     reads_body ep = true ->
     fst (serve py_repr pd ep rq w) = Response (ErrorPage AttributeError) 500).
Proof.
  split; [| split; [| split]].
  - intros d H chat report stop. unfold chat, report, stop, serve. cbn [handle].
    destruct (generate_safety_report_eq rq d w H) as (summary & Er).
    rewrite (ai_chat_eq py_repr rq d w H), Er, (emergency_stop_eq rq d w H).
    repeat split; reflexivity.
  - apply request_json_no_body.
  - intros e ep H Hep. pose proof (request_json_errors rq e H) as He.
    split; [exact He |]. split; [apply serve_post_raises; assumption |].
    destruct He as [-> | ->]; [left | right]; reflexivity.
  - intros v ep H Hv Hep. apply serve_post_not_object with (v := v); assumption.
Qed.

(** C5 (amended): in a running process every API view (every route but the
    root), given a JSON object as body where it reads one, answers 200 with a
    top-level [status] field; it has a top-level [data] field except for the
    health check, which carries [version] and [services] instead, and a
    top-level [timestamp] holding [isoformat()] of the last reading of the
    clock except for the safety report, which carries that text under
    [data.generated_at] next to [message] and [download_url]. *)
Theorem api_response_envelope py_repr w0 reqs ep rq :
  ep <> Index ->
  (reads_body ep = true -> exists d, request_json rq = Ok (PDict d)) ->
  let pd := plant w0 in
  let w := after py_repr w0 reqs in
  let r := fst (serve py_repr pd ep rq w) in
  let w' := snd (serve py_repr pd ep rq w) in
  status_code r = 200%Z /\
  has_field "status" r = true /\
  has_field "data" r = negb (bool_decide (ep = Health)) /\
  has_field "timestamp" r = negb (bool_decide (ep = ReportsSafety)) /\
  (ep <> ReportsSafety ->
   resp_at ["timestamp"] r = Some (PStr (isoformat (last_reading w')))) /\
  (ep = ReportsSafety ->
   resp_at ["data"; "generated_at"] r = Some (PStr (isoformat (last_reading w'))) /\
   has_field "message" r = true /\ has_field "download_url" r = true) /\
  (ep = Health -> has_field "version" r = true /\ has_field "services" r = true).
Proof.
  intros Hidx Hbody pd w r w'.
  destruct (run_spec py_repr w0 reqs) as (ws & _ & Hst & Hws & _).
  fold pd w in Hst.
  pose proof (roster_length _ _ _ Hws) as Hlen.
  assert (Hne : ws <> []) by (intros ->; discriminate).
  pose proof (is_worker_roster_like _ _ _ _ _ Hws) as Hlike.
  destruct ep; try congruence; unfold r, w'.
  - repeat split; try reflexivity; congruence.
  - destruct (get_operations_metrics_eq pd ws w Hst) as (w1 & E & (_ & Hck & _) & Hp & _).
    unfold serve. cbn [handle]. rewrite E. cbn [fst snd].
    unfold last_reading. rewrite Hp, Hck.
    repeat split; try reflexivity; congruence.
  - destruct Hst as (Hw & _).
    rewrite (serve_safety_workers py_repr pd ws rq w Hw Hlike Hne).
    repeat split; try reflexivity; congruence.
  - repeat split; try reflexivity; congruence.
  - destruct Hst as (_ & _ & _ & Hs). unfold serve. cbn [handle].
    rewrite (get_current_schedule_eq pd _ w Hs).
    repeat split; try reflexivity; congruence.
  - repeat split; try reflexivity; congruence.
  - repeat split; try reflexivity; congruence.
  - destruct (Hbody eq_refl) as [d H]. unfold serve. cbn [handle].
    rewrite (ai_chat_eq py_repr rq d w H).
    repeat split; try reflexivity; congruence.
  - destruct (Hbody eq_refl) as [d H]. unfold serve. cbn [handle].
    destruct (generate_safety_report_eq rq d w H) as (summary & Er). rewrite Er.
    repeat split; try reflexivity; congruence.
  - destruct (Hbody eq_refl) as [d H]. unfold serve. cbn [handle].
    rewrite (emergency_stop_eq rq d w H).
    repeat split; try reflexivity; congruence.
Qed.

(** C6: the [current_shift] of the schedule view is the band function of the
    hour [h] of the first clock reading of the call: "Morning Shift" for [h]
    in [[6, 14)], "Afternoon Shift" for [h] in [[14, 22)], "Night Shift" for
    any other hour; the hour is in [[0, 24)], and the bands give morning at 6
    and 13, afternoon at 14 and 21, night at 22 and 5. *)
Theorem current_shift_by_hour py_repr w0 reqs rq :
  let pd := plant w0 in
  let w := after py_repr w0 reqs in
  let r := fst (serve py_repr pd ScheduleCurrent rq w) in
  let h := hour (clock w (clock_pos w)) in
  (0 <= h < 24)%Z /\
  resp_at ["data"; "current_shift"] r = Some (PStr (shift_by_band h)) /\
  ((6 <= h < 14)%Z -> resp_at ["data"; "current_shift"] r = Some (PStr "Morning Shift")) /\
  ((14 <= h < 22)%Z -> resp_at ["data"; "current_shift"] r = Some (PStr "Afternoon Shift")) /\
  ((h < 6 \/ 22 <= h)%Z -> resp_at ["data"; "current_shift"] r = Some (PStr "Night Shift")) /\
  shift_by_band 6 = "Morning Shift" /\ shift_by_band 13 = "Morning Shift" /\
  shift_by_band 14 = "Afternoon Shift" /\ shift_by_band 21 = "Afternoon Shift" /\
  shift_by_band 22 = "Night Shift" /\ shift_by_band 5 = "Night Shift".
Proof.
  intros pd w r h.
  destruct (run_spec py_repr w0 reqs) as (ws & _ & (_ & _ & _ & Hs) & _ & _).
  fold pd w in Hs.
  assert (Hr : resp_at ["data"; "current_shift"] r = Some (PStr (shift_by_band h))).
  { unfold r, serve. cbn [handle]. rewrite (get_current_schedule_eq pd _ w Hs).
    rewrite current_shift_of_band. reflexivity. }
  split; [apply hour_range |]. split; [exact Hr |].
  rewrite Hr. unfold shift_by_band.
  split; [intros H; repeat case_decide; try reflexivity; lia |].
  split; [intros H; repeat case_decide; try reflexivity; lia |].
  split; [intros H; repeat case_decide; try reflexivity; lia |].
  repeat split; reflexivity.
Qed.

(** C7 (amended): for a request whose [message] is the string [m], the chat
    view answers with one of the six templates filled with [m], which
    therefore contains [m], with the three fixed suggestions, and with a
    confidence between the floats 0.85 and 0.98, both ends included. *)
Theorem chat_response_template_and_confidence py_repr pd rq w d m :
  request_json rq = Ok (PDict d) ->
  dict_get "message" d = Some (PStr m) ->
  let r := fst (serve py_repr pd AiChat rq w) in
  length (ai_responses m) = 6%nat /\
  length chat_suggestions = 3%nat /\
  resp_at ["data"; "user_message"] r = Some (PStr m) /\
  resp_at ["data"; "suggestions"] r = Some (strs chat_suggestions) /\
  exists resp conf,
    resp_at ["data"; "ai_response"] r = Some (PStr resp) /\
    resp ∈ ai_responses m /\ contains resp m = true /\
    resp_at ["data"; "confidence"] r = Some (PFloat conf) /\
    (Float64.lit 85 2 <= conf /\ conf <= Float64.lit 98 2)%Q.
Proof.
  intros H Hm r. unfold r, serve. cbn [handle].
  rewrite (ai_chat_eq py_repr rq d w H). rewrite Hm. cbn [default py_str].
  split; [reflexivity |]. split; [reflexivity |].
  split; [reflexivity |]. split; [reflexivity |].
  eexists _, _. split; [reflexivity |].
  assert (Hin : nth (Z.to_nat (draw w 0 mod 6)) (ai_responses m) (hd "" (ai_responses m))
                ∈ ai_responses m).
  { change 6%Z with (Z.of_nat (length (ai_responses m))).
    unfold ai_responses. cbn [hd]. apply choice_elem. }
  split; [exact Hin |]. split; [apply ai_responses_contain, Hin |].
  split; [reflexivity | apply confidence_range].
Qed.



(** C10: whatever requests were served, each of the 50 worker records of the
    store has [certification_valid] equal to [True]. *)
Theorem certification_always_valid py_repr w0 reqs :
  exists ws,
    heap (after py_repr w0 reqs) !! workers (plant w0) = Some (PList ws) /\
    length ws = 50%nat /\
    Forall (fun v => getitem v "certification_valid" = Ok (PBool true)) ws.
Proof.
  destruct (run_spec py_repr w0 reqs) as (ws & _ & (Hw & _) & Hws & _).
  exists ws. split; [exact Hw |]. split; [apply (roster_length _ _ _ Hws) |].
  clear -Hws. induction Hws as [| i v l ws Hv _ IH]; constructor; [| exact IH].
  destruct Hv as (? & ? & ? & ? & ? & ? & -> & _). reflexivity.
Qed.

(** ** The claims on sample processes *)

(** Against C4 as stated: without a body, with a malformed body, or without
    the JSON content type, the three views fail and no default is returned. *)
Lemma post_without_json_body_fails :
  let chat := fst (serve sample_repr (plant sample_world) AiChat
                     (Request true NoBody) (started sample_world)) in
  let report := fst (serve sample_repr (plant sample_world) ReportsSafety
                       (Request true (Malformed "{period")) (started sample_world)) in
  let stop := fst (serve sample_repr (plant sample_world) EmergencyStop
                     (Request false NoBody) (started sample_world)) in
  chat = Response (ErrorPage BadRequest) 400 /\
  report = Response (ErrorPage BadRequest) 400 /\
  stop = Response (ErrorPage UnsupportedMediaType) 415 /\
  resp_at ["data"; "user_message"] chat = None /\
  resp_at ["data"; "period"] report = None /\
  resp_at ["data"; "reason"] stop = None.
Proof. vm_compute. repeat split; reflexivity. Qed.

(** The amended C4 at a request whose body is the empty JSON object: all four
    defaults are returned. *)
Lemma post_defaults_witness :
  request_json empty_object_request = Ok (PDict []) /\
  resp_at ["data"; "user_message"]
    (fst (serve sample_repr (plant sample_world) AiChat empty_object_request
            (started sample_world)))
  = Some (PStr "") /\
  resp_at ["data"; "period"]
    (fst (serve sample_repr (plant sample_world) ReportsSafety empty_object_request
            (started sample_world)))
  = Some (PStr "daily") /\
  resp_at ["data"; "initiated_by"]
    (fst (serve sample_repr (plant sample_world) EmergencyStop empty_object_request
            (started sample_world)))
  = Some (PStr "system") /\
  resp_at ["data"; "reason"]
    (fst (serve sample_repr (plant sample_world) EmergencyStop empty_object_request
            (started sample_world)))
  = Some (PStr "Manual emergency stop").
Proof.
  split; [reflexivity |].
  destruct (proj1 (post_defaults_on_json_objects sample_repr (plant sample_world)
                     empty_object_request (started sample_world)) [] eq_refl)
    as (_ & _ & _ & Hm & Hp & Hi & Hr).
  split; [exact Hm |]. split; [exact Hp |]. split; [exact Hi | exact Hr].
Defined.

(** Against C5 as stated: the health check has no [data] field and the
    safety report no top-level [timestamp]. *)
Lemma health_has_no_data_report_no_timestamp :
  let health := fst (serve sample_repr (plant sample_world) Health get_request
                       (started sample_world)) in
  let report := fst (serve sample_repr (plant sample_world) ReportsSafety
                       empty_object_request (started sample_world)) in
  status_code health = 200%Z /\ has_field "data" health = false /\
  status_code report = 200%Z /\ has_field "timestamp" report = false.
Proof. vm_compute. repeat split; reflexivity. Qed.

(** The amended C5 at a chat request in a freshly started sample process. *)
Lemma api_response_envelope_witness :
  AiChat <> Index /\
  (reads_body AiChat = true ->
   exists d, request_json (chat_request "kiln temp") = Ok (PDict d)) /\
  has_field "status"
    (fst (serve sample_repr (plant sample_world) AiChat (chat_request "kiln temp")
            (after sample_repr sample_world [])))
  = true.
Proof.
  assert (H1 : AiChat <> Index) by discriminate.
  assert (H2 : reads_body AiChat = true ->
               exists d, request_json (chat_request "kiln temp") = Ok (PDict d))
    by (intros _; eexists; reflexivity).
  split; [exact H1 |]. split; [exact H2 |].
  exact (proj1 (proj2
    (api_response_envelope sample_repr sample_world [] AiChat
       (chat_request "kiln temp") H1 H2))).
Defined.

(** C6 at clocks that read the hours 6, 21 and 5. *)
Lemma current_shift_by_hour_witness :
  (6 <= hour (clock (after sample_repr (world_at_hour 6) [])
                    (clock_pos (after sample_repr (world_at_hour 6) []))) < 14)%Z /\
  resp_at ["data"; "current_shift"]
    (fst (serve sample_repr (plant (world_at_hour 6)) ScheduleCurrent get_request
            (after sample_repr (world_at_hour 6) [])))
  = Some (PStr "Morning Shift") /\
  (14 <= hour (clock (after sample_repr (world_at_hour 21) [])
                     (clock_pos (after sample_repr (world_at_hour 21) []))) < 22)%Z /\
  resp_at ["data"; "current_shift"]
    (fst (serve sample_repr (plant (world_at_hour 21)) ScheduleCurrent get_request
            (after sample_repr (world_at_hour 21) [])))
  = Some (PStr "Afternoon Shift") /\
  (hour (clock (after sample_repr (world_at_hour 5) [])
               (clock_pos (after sample_repr (world_at_hour 5) []))) < 6 \/
   22 <= hour (clock (after sample_repr (world_at_hour 5) [])
                     (clock_pos (after sample_repr (world_at_hour 5) []))))%Z /\
  resp_at ["data"; "current_shift"]
    (fst (serve sample_repr (plant (world_at_hour 5)) ScheduleCurrent get_request
            (after sample_repr (world_at_hour 5) [])))
  = Some (PStr "Night Shift").
Proof.
  assert (H6 : (6 <= hour (clock (after sample_repr (world_at_hour 6) [])
                  (clock_pos (after sample_repr (world_at_hour 6) []))) < 14)%Z)
    by (vm_compute; split; [discriminate | reflexivity]).
  assert (H21 : (14 <= hour (clock (after sample_repr (world_at_hour 21) [])
                  (clock_pos (after sample_repr (world_at_hour 21) []))) < 22)%Z)
    by (vm_compute; split; [discriminate | reflexivity]).
  assert (H5 : (hour (clock (after sample_repr (world_at_hour 5) [])
                  (clock_pos (after sample_repr (world_at_hour 5) []))) < 6 \/
                22 <= hour (clock (after sample_repr (world_at_hour 5) [])
                  (clock_pos (after sample_repr (world_at_hour 5) []))))%Z)
    by (left; vm_compute; reflexivity).
  split; [exact H6 |]. split.
  { exact (proj1 (proj2 (proj2
      (current_shift_by_hour sample_repr (world_at_hour 6) [] get_request))) H6). }
  split; [exact H21 |]. split.
  { exact (proj1 (proj2 (proj2 (proj2
      (current_shift_by_hour sample_repr (world_at_hour 21) [] get_request)))) H21). }
  split; [exact H5 |].
  exact (proj1 (proj2 (proj2 (proj2 (proj2
    (current_shift_by_hour sample_repr (world_at_hour 5) [] get_request))))) H5).
Defined.

(** Against C7 as stated: on the largest draw of the generator the
    confidence is the float 0.98 itself, so the interval is closed above. *)
Lemma confidence_reaches_upper_end :
  let r := fst (serve sample_repr (plant top_draw_world) AiChat
                  (chat_request "kiln temp") (started top_draw_world)) in
  resp_at ["data"; "confidence"] r = Some (PFloat (Float64.lit 98 2)) /\
  ~ (Float64.lit 98 2 < Float64.lit 98 2)%Q.
Proof.
  split; [vm_compute; reflexivity | apply Qlt_irrefl].
Qed.

(** The lower end is returned as well: on the smallest draw of the generator
    the confidence is the float 0.85 itself. *)
Lemma confidence_reaches_lower_end :
  let r := fst (serve sample_repr (plant zero_draw_world) AiChat
                  (chat_request "kiln temp") (started zero_draw_world)) in
  resp_at ["data"; "confidence"] r = Some (PFloat (Float64.lit 85 2)).
Proof. vm_compute. reflexivity. Qed.

(** The amended C7 at the message "kiln temp" in the sample process. *)
Lemma chat_response_witness :
  request_json (chat_request "kiln temp") = Ok (PDict [("message", PStr "kiln temp")]) /\
  dict_get "message" [("message", PStr "kiln temp")] = Some (PStr "kiln temp") /\
  exists resp conf,
    resp_at ["data"; "ai_response"]
      (fst (serve sample_repr (plant sample_world) AiChat (chat_request "kiln temp")
              (started sample_world)))
    = Some (PStr resp) /\
    resp ∈ ai_responses "kiln temp" /\ contains resp "kiln temp" = true /\
    resp_at ["data"; "confidence"]
      (fst (serve sample_repr (plant sample_world) AiChat (chat_request "kiln temp")
              (started sample_world)))
    = Some (PFloat conf) /\
    (Float64.lit 85 2 <= conf /\ conf <= Float64.lit 98 2)%Q.
Proof.
  split; [reflexivity |]. split; [reflexivity |].
  exact (proj2 (proj2 (proj2 (proj2
    (chat_response_template_and_confidence sample_repr (plant sample_world)
       (chat_request "kiln temp") (started sample_world)
       [("message", PStr "kiln temp")] "kiln temp" eq_refl eq_refl))))).
Defined.


(** ** Further properties of the store and the views *)

(** *** The roster *)

Lemma generate_worker_eq i w :
  generate_worker i w = (Ok (record_in i w), skip 5 1 w).
Proof. reflexivity. Qed.

Lemma mapM_generate_worker_eq n : forall a w,
  mapM generate_worker (seqZ a (Z.of_nat n)) w
  = (Ok (map (fun j => record_in (a + Z.of_nat j) (skip (5 * j) j w)) (seq 0 n)),
     skip (5 * n) n w).
Proof.
  induction n as [| n IH]; intros a w.
  - cbn. unfold ret, skip. destruct w; reflexivity.
  - rewrite Nat2Z.inj_succ, seqZ_cons by lia.
    cbn [mapM]. rewrite (bind_Ok _ _ _ _ _ (generate_worker_eq a w)).
    replace (Z.pred (Z.succ (Z.of_nat n))) with (Z.of_nat n) by lia.
    rewrite (bind_Ok _ _ _ _ _ (IH (Z.succ a) (skip 5 1 w))).
    unfold ret. rewrite skip_skip. f_equal.
    + f_equal. cbn [seq map]. f_equal.
      * f_equal; [lia |]. unfold skip. destruct w; reflexivity.
      * rewrite <- seq_shift, map_map. apply map_ext. intros j.
        rewrite skip_skip. f_equal; [lia |]. f_equal; lia.
    + f_equal; lia.
Qed.

Lemma generate_mock_workers_eq w :
  generate_mock_workers w = (Ok (map (worker_of w) (seq 0 50)), skip 250 50 w).
Proof.
  unfold generate_mock_workers, py_range.
  change (51 - 1)%Z with (Z.of_nat 50).
  rewrite mapM_generate_worker_eq.
  rewrite (map_ext _ (worker_of w)); [reflexivity |].
  intros j. unfold worker_of. f_equal. lia.
Qed.

(** The roster of the store right after the start, record by record. *)
Lemma boot_roster w0 :
  heap (started w0) !! workers (plant w0)
  = Some (PList (map (worker_of w0) (seq 0 50))).
Proof.
  unfold started, plant, boot, PlantDataStore_init.
  rewrite (bind_Ok _ _ _ _ _ (generate_mock_workers_eq w0)).
  unfold bind, alloc, generate_mock_schedules, ret, set_heap.
  cbn [fst snd heap rand rand_pos clock clock_pos frontend_index skip workers].
  set (h0 := heap w0).
  set (l1 := fresh (dom h0)).
  set (h1 := <[l1 := PList (map (worker_of w0) (seq 0 50))]> h0).
  set (l2 := fresh (dom h1)). set (h2 := <[l2 := PList []]> h1).
  set (l3 := fresh (dom h2)). set (h3 := <[l3 := baseline_metrics]> h2).
  set (l4 := fresh (dom h3)).
  assert (N12 : l2 <> l1).
  { apply (lookup_ne_of_None h1); [apply fresh_lookup |]. unfold h1. rewrite lookup_insert_eq. eauto. }
  assert (N13 : l3 <> l1).
  { apply (lookup_ne_of_None h2); [apply fresh_lookup |]. unfold h2, h1.
    rewrite lookup_insert_ne, lookup_insert_eq by congruence. eauto. }
  assert (N14 : l4 <> l1).
  { apply (lookup_ne_of_None h3); [apply fresh_lookup |]. unfold h3, h2, h1.
    rewrite !lookup_insert_ne, lookup_insert_eq by congruence. eauto. }
  unfold h3, h2, h1.
  rewrite !lookup_insert_ne, lookup_insert_eq by congruence.
  reflexivity.
Qed.

Lemma draw_skip r c w k : draw (skip r c w) k = draw w (r + k).
Proof. unfold draw, raw, skip. cbn [rand rand_pos]. do 2 f_equal. lia. Qed.

(** The roster of a running process, record by record. *)
Lemma run_roster py_repr w0 reqs :
  heap (after py_repr w0 reqs) !! workers (plant w0)
  = Some (PList (map (worker_of w0) (seq 0 50))).
Proof.
  destruct (run_spec py_repr w0 reqs) as (ws & (Hw0 & _) & (Hw & _) & _).
  rewrite Hw, <- Hw0. apply boot_roster.
Qed.

Lemma minus_days_ordinal x d :
  ((x - d * us_per_day) / us_per_day = x / us_per_day - d)%Z.
Proof.
  replace (x - d * us_per_day)%Z with (x + (- d) * us_per_day)%Z by lia.
  rewrite Z.div_add by (unfold us_per_day; lia). lia.
Qed.

Lemma minus_days_mod x d m k :
  (0 < m)%Z -> us_per_day = (k * m)%Z ->
  ((x - d * us_per_day) mod m = x mod m)%Z.
Proof.
  intros Hm ->.
  replace (x - d * (k * m))%Z with (x + (- d * k) * m)%Z by lia.
  apply Z_mod_plus_full.
Qed.

Lemma minus_days_div_mod x d m n k :
  (0 < m)%Z -> (0 < n)%Z -> us_per_day = (k * n * m)%Z ->
  (((x - d * us_per_day) / m) mod n = (x / m) mod n)%Z.
Proof.
  intros Hm Hn ->.
  replace (x - d * (k * n * m))%Z with (x + (- d * k * n) * m)%Z by lia.
  rewrite Z.div_add by lia.
  replace (x / m + - d * k * n)%Z with (x / m + (- d * k) * n)%Z by lia.
  apply Z_mod_plus_full.
Qed.

(** X1: every worker record is stamped from its own reading of the clock:
    in a running process, whatever requests were served, record j of the
    roster (from 0, j < 50) has id 'W' + str(1001 + j), and its
    [last_safety_training] is the j-th reading the start made of the clock
    minus d whole days for some d in 1..90, so it lies d calendar days before
    that reading at the same time of day, down to the microsecond. *)
Theorem roster_reads_clock_per_record py_repr w0 reqs (j : nat) :
  (j < 50)%nat ->
  let now_j := clock w0 (j + clock_pos w0) in
  exists (ws : list pyval) (v : pyval) (t : datetime) (d : Z),
    heap (after py_repr w0 reqs) !! workers (plant w0) = Some (PList ws) /\
    ws !! j = Some v /\
    getitem v "id" = Ok (PStr ("W" +:+ str_int (1001 + Z.of_nat j))) /\
    getitem v "last_safety_training" = Ok (PDatetime t) /\
    (1 <= d <= 90)%Z /\
    dt_us t = (dt_us now_j - d * us_per_day)%Z /\
    toordinal t = (toordinal now_j - d)%Z /\
    hour t = hour now_j /\ minute t = minute now_j /\
    second t = second now_j /\ microsecond t = microsecond now_j.
Proof.
  intros Hj now_j.
  exists (map (worker_of w0) (seq 0 50)), (worker_of w0 j),
         (Datetime (dt_us now_j - (1 + draw w0 (5 * j + 4) mod 90) * us_per_day)),
         (1 + draw w0 (5 * j + 4) mod 90)%Z.
  split; [apply run_roster |]. split.
  { rewrite list_lookup_fmap, lookup_seq_lt by exact Hj. reflexivity. }
  unfold worker_of, record_in. rewrite !draw_skip.
  cbn [getitem dict_get String.eqb Ascii.eqb Bool.eqb skip clock clock_pos].
  split; [do 3 f_equal; f_equal; lia |].
  split; [unfold dt_sub, timedelta, now_j; do 3 f_equal; lia |].
  split; [pose proof (mod_range (draw w0 (5 * j + 4)) 90); lia |].
  split; [reflexivity |].
  unfold toordinal, hour, minute, second, microsecond. cbn [dt_us].
  split; [apply minus_days_ordinal |].
  split; [rewrite (minus_days_mod _ _ us_per_day 1) by (unfold us_per_day; lia);
          reflexivity |].
  split; [apply (minus_days_div_mod _ _ 60000000 60 24); unfold us_per_day; lia |].
  split; [apply (minus_days_div_mod _ _ 1000000 60 1440); unfold us_per_day; lia |].
  apply (minus_days_mod _ _ 1000000 86400). lia. reflexivity.
Qed.

Lemma worker_id_texts_distinct :
  NoDup (map (fun i => "W" +:+ str_int (1000 + i)) (py_range 1 51)).
Proof. apply (bool_decide_unpack _). vm_compute. exact I. Qed.

(** X2: in a running process the ids of the 50 worker records are pairwise
    different, and every record has id 'W' + str(1000 + i) and name
    'Worker ' + str(i) for one and the same i in 1..50. *)
Theorem worker_ids_distinct py_repr w0 reqs :
  exists ws,
    heap (after py_repr w0 reqs) !! workers (plant w0) = Some (PList ws) /\
    NoDup (map (fun v => getitem v "id") ws) /\
    Forall (fun v =>
      exists i : Z, (1 <= i <= 50)%Z /\
        getitem v "id" = Ok (PStr ("W" +:+ str_int (1000 + i))) /\
        getitem v "name" = Ok (PStr ("Worker " +:+ str_int i))) ws.
Proof.
  destruct (run_spec py_repr w0 reqs) as (ws & _ & (Hw & _) & Hws & _).
  exists ws. split; [exact Hw |]. split.
  - rewrite (is_worker_ids _ _ _ _ _ Hws).
    change (map worker_id (py_range 1 51))
      with (map (fun s => Ok (PStr s))
              (map (fun i => "W" +:+ str_int (1000 + i)) (py_range 1 51))).
    apply NoDup_fmap_2; [| exact worker_id_texts_distinct].
    intros s t [= ->]. reflexivity.
  - assert (Hr : Forall (fun i => 1 <= i <= 50)%Z (py_range 1 51)).
    { apply Forall_forall. intros i Hi. unfold py_range in Hi.
      apply elem_of_seqZ in Hi. lia. }
    clear Hw. induction Hws as [| i v l ws Hv _ IH]; constructor.
    + destruct Hv as (? & ? & ? & ? & ? & ? & -> & _).
      exists i. split; [exact (Forall_inv Hr) |]. split; reflexivity.
    + apply IH. exact (Forall_inv_tail Hr).
Qed.

Lemma count_cons p v l :
  count p (v :: l) = (Z.b2z (p v) + count p l)%Z.
Proof. unfold count. cbn [List.filter]. destruct (p v); cbn [length Z.b2z]; lia. Qed.

Lemma count_all p ws :
  Forall (fun v => p v = true) ws -> count p ws = Z.of_nat (length ws).
Proof.
  induction 1 as [| v ws Hv _ IH]; [reflexivity |].
  rewrite count_cons, Hv, IH. cbn [length Z.b2z]. lia.
Qed.

(** X3: every worker of the roster has an int age of at least 18, so the
    fixed numbers of the compliance view under age_verification
    (verified_workers 50 of total_workers 50) are the count of workers of age
    and the size of the roster of the running process. *)
Theorem all_workers_of_age py_repr w0 reqs rq :
  let pd := plant w0 in
  let w := after py_repr w0 reqs in
  let r := fst (serve py_repr pd ComplianceStatus rq w) in
  exists ws,
    heap w !! workers pd = Some (PList ws) /\
    Forall (fun v => is_adult v = true) ws /\
    resp_at ["data"; "age_verification"; "verified_workers"] r
    = Some (PInt (count is_adult ws)) /\
    resp_at ["data"; "age_verification"; "total_workers"] r
    = Some (PInt (Z.of_nat (length ws))).
Proof.
  intros pd w r.
  destruct (run_spec py_repr w0 reqs) as (ws & _ & (Hw & _) & Hws & _).
  pose proof (roster_length _ _ _ Hws) as Hlen.
  change (length (py_range 1 51)) with 50%nat in Hlen.
  assert (Ha : Forall (fun v => is_adult v = true) ws).
  { clear -Hws. induction Hws as [| i v l ws Hv _ IH]; constructor; [| exact IH].
    destruct Hv as (age & ? & ? & ? & ? & ? & -> & Hage & _).
    unfold is_adult. cbn. apply Z.leb_le. lia. }
  assert (Hc : count is_adult ws = 50%Z).
  { rewrite (count_all _ _ Ha), Hlen. reflexivity. }
  exists ws. split; [exact Hw |]. split; [exact Ha |].
  rewrite Hc, Hlen. split; reflexivity.
Qed.

(** *** What a request costs and how it is answered *)

Lemma body_cases rq :
  (exists d, request_json rq = Ok (PDict d) /\ body_is_object rq = true) \/
  (exists e, request_json rq = Raise e /\ body_is_object rq = false) \/
  (exists v, request_json rq = Ok v /\ (forall d, v <> PDict d) /\
             body_is_object rq = false /\
             forall k dflt, py_get v k dflt = Raise AttributeError).
Proof.
  unfold body_is_object. destruct (request_json rq) as [v | e]; [| right; left; eauto].
  destruct v as [| | | | | | | d];
    try (right; right; eexists;
         split; [reflexivity | split; [discriminate | split; reflexivity]]).
  left. eauto.
Qed.

Section Accounting.
Variable py_repr : pyval -> string.

Lemma serve_readings_at pd ws ep rq w :
  store_at pd ws w -> Forall worker_like ws -> ws <> [] ->
  clock_pos (snd (serve py_repr pd ep rq w)) = (readings_used ep rq + clock_pos w)%nat.
Proof.
  intros Hst Hlike Hne. destruct ep; cbn [readings_used].
  - unfold serve, handle, index, except_FileNotFoundError, bind, read_frontend_index.
    destruct (frontend_index w) as [| s | e]; [reflexivity | reflexivity |].
    destruct e; reflexivity.
  - reflexivity.
  - destruct (get_operations_metrics_eq pd ws w Hst) as (w1 & E & _ & Hc & Hr).
    unfold serve. cbn [handle]. rewrite E. cbn [snd]. exact Hc.
  - destruct Hst as (Hw & _).
    rewrite (serve_safety_workers py_repr pd ws rq w Hw Hlike Hne). reflexivity.
  - reflexivity.
  - destruct Hst as (_ & _ & _ & Hs). unfold serve. cbn [handle].
    rewrite (get_current_schedule_eq pd _ w Hs). reflexivity.
  - reflexivity.
  - reflexivity.
  - unfold serve. cbn [handle].
    destruct (body_cases rq) as [(d & H & ->) | [(e & H & ->) | (v & H & _ & -> & Hg)]].
    + rewrite (ai_chat_eq py_repr rq d w H). reflexivity.
    + unfold ai_chat. cbv beta iota delta [bind lift]. rewrite H. reflexivity.
    + unfold ai_chat. cbv beta iota delta [bind lift]. rewrite H, Hg. reflexivity.
  - unfold serve. cbn [handle].
    destruct (body_cases rq) as [(d & H & ->) | [(e & H & ->) | (v & H & _ & -> & Hg)]].
    + destruct (generate_safety_report_eq rq d w H) as (summary & Er). rewrite Er.
      reflexivity.
    + unfold generate_safety_report. cbv beta iota delta [bind lift now]. rewrite H.
      reflexivity.
    + unfold generate_safety_report. cbv beta iota delta [bind lift now]. rewrite H, Hg.
      reflexivity.
  - unfold serve. cbn [handle].
    destruct (body_cases rq) as [(d & H & ->) | [(e & H & ->) | (v & H & _ & -> & Hg)]].
    + rewrite (emergency_stop_eq rq d w H). reflexivity.
    + unfold emergency_stop. cbv beta iota delta [bind lift now]. rewrite H.
      reflexivity.
    + unfold emergency_stop. cbv beta iota delta [bind lift now]. rewrite H, Hg.
      reflexivity.
Qed.

(** The emergency stop makes no call of the generator. *)
Lemma emergency_stop_no_draw pd rq w :
  rand_pos (snd (serve py_repr pd EmergencyStop rq w)) = rand_pos w.
Proof.
  unfold serve. cbn [handle].
  destruct (body_cases rq) as [(d & H & _) | [(e & H & _) | (v & H & _ & _ & Hg)]].
  - rewrite (emergency_stop_eq rq d w H). reflexivity.
  - unfold emergency_stop. cbv beta iota delta [bind lift now]. rewrite H.
    reflexivity.
  - unfold emergency_stop. cbv beta iota delta [bind lift now]. rewrite H, Hg.
    reflexivity.
Qed.
End Accounting.

Lemma serve_all_readings py_repr pd ws reqs : forall w,
  store_at pd ws w -> Forall worker_like ws -> ws <> [] ->
  clock_pos (snd (serve_all py_repr pd reqs w)) = (total_readings reqs + clock_pos w)%nat.
Proof.
  induction reqs as [| [ep rq] reqs IH]; intros w Hst Hlike Hne.
  - reflexivity.
  - cbn [serve_all].
    pose proof (serve_readings_at py_repr pd ws ep rq w Hst Hlike Hne) as Hc.
    pose proof (handle_continues py_repr pd ws ep rq w Hst) as Hk.
    rewrite <- serve_world in Hk.
    destruct (serve py_repr pd ep rq w) as [r w1]. cbn [snd] in *.
    pose proof (continues_store_at _ _ _ _ Hk Hst) as Hst1.
    pose proof (IH w1 Hst1 Hlike Hne) as Hc2.
    destruct (serve_all py_repr pd reqs w1) as [rs w2]. cbn [snd] in *.
    cbn [total_readings]. lia.
Qed.

(** X4: the clock is read a number of times that is fixed per view: after the
    start (50 readings, one per worker record) and any sequence of requests,
    the clock has been read as often as [readings_used] adds up to. Readings:
    none for the index, 3 for the violations and for the current schedule, 1
    for a chat on a JSON object and none otherwise, 2 for a report or an
    emergency stop on a JSON object and 1 otherwise (the id is made before
    the body is read), 1 for every other view. No view sets the clock. *)
Theorem run_clock_readings py_repr w0 reqs :
  clock_pos (after py_repr w0 reqs) = (total_readings reqs + 50 + clock_pos w0)%nat /\
  clock (after py_repr w0 reqs) = clock w0.
Proof.
  destruct (boot_spec w0) as (_ & ws & Hst & Hws & _ & _ & Hc & _ & Hcp & _).
  fold (plant w0) (started w0) in Hst, Hc, Hcp.
  pose proof (is_worker_roster_like _ _ _ _ _ Hws) as Hlike.
  pose proof (roster_length _ _ _ Hws) as Hlen.
  assert (Hne : ws <> []) by (intros ->; discriminate).
  pose proof (serve_all_readings py_repr (plant w0) ws reqs (started w0) Hst Hlike Hne)
    as H2.
  destruct (serve_all_continues py_repr (plant w0) ws reqs (started w0) Hst)
    as [(_ & Kc & _) _].
  unfold after. rewrite H2, Kc, Hc, Hcp. split; [lia | reflexivity].
Qed.

Lemma serve_status_at py_repr pd ws ep rq w :
  store_at pd ws w -> Forall worker_like ws -> ws <> [] -> ep <> Index ->
  status_code (fst (serve py_repr pd ep rq w)) = expected_status ep rq.
Proof.
  intros Hst Hlike Hne Hidx. unfold expected_status.
  destruct ep; try congruence; cbn [reads_body].
  - reflexivity.
  - destruct (serve_operations_metrics py_repr pd ws rq w Hst) as (E & _).
    rewrite E. reflexivity.
  - destruct Hst as (Hw & _).
    rewrite (serve_safety_workers py_repr pd ws rq w Hw Hlike Hne). reflexivity.
  - reflexivity.
  - destruct Hst as (_ & _ & _ & Hs). unfold serve. cbn [handle].
    rewrite (get_current_schedule_eq pd _ w Hs). reflexivity.
  - reflexivity.
  - reflexivity.
  - unfold serve. cbn [handle].
    destruct (body_cases rq) as [(d & H & _) | [(e & H & _) | (v & H & Hv & _ & Hg)]].
    + rewrite (ai_chat_eq py_repr rq d w H), H. reflexivity.
    + unfold ai_chat. cbv beta iota delta [bind lift]. rewrite H. reflexivity.
    + unfold ai_chat. cbv beta iota delta [bind lift]. rewrite H, Hg.
      destruct v; try reflexivity. exfalso. eapply Hv. reflexivity.
  - unfold serve. cbn [handle].
    destruct (body_cases rq) as [(d & H & _) | [(e & H & _) | (v & H & Hv & _ & Hg)]].
    + destruct (generate_safety_report_eq rq d w H) as (summary & Er).
      rewrite Er, H. reflexivity.
    + unfold generate_safety_report. cbv beta iota delta [bind lift now]. rewrite H.
      reflexivity.
    + unfold generate_safety_report. cbv beta iota delta [bind lift now]. rewrite H, Hg.
      destruct v; try reflexivity. exfalso. eapply Hv. reflexivity.
  - unfold serve. cbn [handle].
    destruct (body_cases rq) as [(d & H & _) | [(e & H & _) | (v & H & Hv & _ & Hg)]].
    + rewrite (emergency_stop_eq rq d w H), H. reflexivity.
    + unfold emergency_stop. cbv beta iota delta [bind lift now]. rewrite H.
      reflexivity.
    + unfold emergency_stop. cbv beta iota delta [bind lift now]. rewrite H, Hg.
      destruct v; try reflexivity. exfalso. eapply Hv. reflexivity.
Qed.

(** X5: in a running process every view but the index answers 200, 400, 415
    or 500, and it answers 200 exactly when it does not read the body or the
    body is a JSON object: the views that take no input cannot fail (the
    roster is never empty, so the rates never divide by zero), and the three
    views that read the body fail on every body that is not a JSON object. *)
Theorem api_status_characterised py_repr w0 reqs ep rq :
  ep <> Index ->
  let r := fst (serve py_repr (plant w0) ep rq (after py_repr w0 reqs)) in
  status_code r = expected_status ep rq /\
  (status_code r = 200 \/ status_code r = 400 \/ status_code r = 415
   \/ status_code r = 500)%Z /\
  (status_code r = 200%Z <-> reads_body ep = false \/ body_is_object rq = true).
Proof.
  intros Hidx r.
  destruct (run_spec py_repr w0 reqs) as (ws & _ & Hst & Hws & _).
  pose proof (roster_length _ _ _ Hws) as Hlen.
  assert (Hne : ws <> []) by (intros ->; discriminate).
  pose proof (is_worker_roster_like _ _ _ _ _ Hws) as Hlike.
  pose proof (serve_status_at py_repr (plant w0) ws ep rq _ Hst Hlike Hne Hidx) as Hs.
  fold r in Hs. rewrite Hs. split; [reflexivity |].
  unfold expected_status, body_is_object.
  destruct (reads_body ep); [| split; [auto | split; auto]].
  destruct (request_json rq) as [v | e].
  - destruct v; (split; [auto | split; [intros; try discriminate; auto | intros [? | ?]; congruence]]).
  - destruct e; cbn [http_status];
      (split; [auto | split; [intros; discriminate | intros [? | ?]; congruence]]).
Qed.

(** X6: the index view only handles a missing file: any other failure of
    opening or reading frontend/index.html leaves the view as an exception,
    which is answered with an error page (status 500 unless the exception is
    an HTTP error of its own) and not with the JSON object of the 404 case;
    the state does not change. *)
Theorem index_other_errors_propagate py_repr pd rq w e :
  frontend_index w = FileError e -> e <> FileNotFoundError ->
  serve py_repr pd Index rq w = (Response (ErrorPage e) (http_status e), w) /\
  (e <> BadRequest -> e <> UnsupportedMediaType -> http_status e = 500%Z).
Proof.
  intros H He. split.
  - unfold serve, handle, index, except_FileNotFoundError, bind, read_frontend_index.
    rewrite H. destruct e; try reflexivity. congruence.
  - intros H1 H2. destruct e; try reflexivity; congruence.
Qed.

(** *** The views *)

(** X7: the optimisation view never looks at the request or at the store: for
    every request, in every state, it answers 200, leaves the heap as it is,
    and returns the id 'OPT_' + a with 1000 <= a <= 9999, an efficiency gain
    of 5..15 percent, savings of 10000..50000 per day and a score improvement
    of 2..8 points, the status 'completed' and the fixed message. *)
Theorem optimize_schedule_ignores_request py_repr pd rq w :
  let r := fst (serve py_repr pd ScheduleOptimize rq w) in
  let w' := snd (serve py_repr pd ScheduleOptimize rq w) in
  status_code r = 200%Z /\
  heap w' = heap w /\
  (exists a b c d : Z,
     (1000 <= a <= 9999)%Z /\ (5 <= b <= 15)%Z /\
     (10000 <= c <= 50000)%Z /\ (2 <= d <= 8)%Z /\
     resp_at ["data"; "optimization_id"] r = Some (PStr ("OPT_" +:+ str_int a)) /\
     resp_at ["data"; "improvements"; "efficiency_gain"] r
     = Some (PStr (str_int b +:+ "%")) /\
     resp_at ["data"; "improvements"; "energy_savings"] r
     = Some (PStr ("₹" +:+ str_int c +:+ "/day")) /\
     resp_at ["data"; "improvements"; "safety_score_improvement"] r
     = Some (PStr (str_int d +:+ " points"))) /\
  resp_at ["data"; "status"] r = Some (PStr "completed") /\
  resp_at ["message"] r = Some (PStr "Schedule optimization completed").
Proof.
  intros r w'. split; [reflexivity |]. split; [reflexivity |].
  split; [| split; reflexivity].
  exists (1000 + draw w 0 mod (9999 - 1000 + 1))%Z, (5 + draw w 1 mod (15 - 5 + 1))%Z,
         (10000 + draw w 2 mod (50000 - 10000 + 1))%Z, (2 + draw w 3 mod (8 - 2 + 1))%Z.
  split; [apply randint_range; lia |]. split; [apply randint_range; lia |].
  split; [apply randint_range; lia |]. split; [apply randint_range; lia |].
  repeat split; reflexivity.
Qed.

(** X8: the list safety_violations of the store is empty in every running
    process, before and after the violations view, which does not read it:
    the view returns its two fixed records (W1047, unresolved; W1023,
    resolved), their timestamps being the first clock reading minus 2 hours
    and the second reading minus 5 hours. *)
Theorem violations_fixed_and_store_list_empty py_repr w0 reqs rq :
  let pd := plant w0 in
  let w := after py_repr w0 reqs in
  let r := fst (serve py_repr pd SafetyViolations rq w) in
  let w' := snd (serve py_repr pd SafetyViolations rq w) in
  heap w !! safety_violations pd = Some (PList []) /\
  heap w' !! safety_violations pd = Some (PList []) /\
  exists v1 v2,
    resp_at ["data"] r = Some (PList [v1; v2]) /\
    getitem v1 "worker_id" = Ok (PStr "W1047") /\
    getitem v1 "worker_name" = Ok (PStr "Ahmed Hassan") /\
    getitem v1 "resolved" = Ok (PBool false) /\
    getitem v1 "timestamp"
    = Ok (PStr (isoformat (Datetime (dt_us (clock w (clock_pos w)) - 2 * us_per_hour)))) /\
    getitem v2 "worker_id" = Ok (PStr "W1023") /\
    getitem v2 "worker_name" = Ok (PStr "Lisa Chen") /\
    getitem v2 "resolved" = Ok (PBool true) /\
    getitem v2 "timestamp"
    = Ok (PStr (isoformat (Datetime (dt_us (clock w (1 + clock_pos w)) - 5 * us_per_hour)))).
Proof.
  intros pd w r w'.
  destruct (run_spec py_repr w0 reqs) as (ws & _ & Hst & _ & _).
  fold pd w in Hst. destruct Hst as (_ & Hv & _).
  split; [exact Hv |]. split; [exact Hv |].
  eexists _, _. split; [reflexivity |].
  repeat split; reflexivity.
Qed.

Lemma status_partition ck lo hi l ws :
  Forall2 (is_worker ck lo hi) l ws ->
  (count (status_is "Safe") ws
   + count (status_in ["PPE Missing"; "Training Required"]) ws
   + count (status_is "Off Duty") ws = Z.of_nat (length ws))%Z.
Proof.
  induction 1 as [| i v l ws Hv _ IH]; [reflexivity |].
  rewrite !count_cons. cbn [length]. rewrite Nat2Z.inj_succ, <- IH.
  destruct Hv as (age & zone & status & ppe & k & days & -> & _ & _ & Hs & _).
  unfold statuses in Hs.
  repeat (apply elem_of_cons in Hs as [-> | Hs]; [cbn; lia |]).
  apply elem_of_nil in Hs. contradiction.
Qed.

(** X9: in a running process the statistics of the worker-safety view
    partition the roster: safe_workers, violations_today and the workers with
    status 'Off Duty' add up to the 50 workers, so safe_workers +
    violations_today never exceeds total_workers. *)
Theorem safety_statistics_partition py_repr w0 reqs rq :
  let pd := plant w0 in
  let w := after py_repr w0 reqs in
  let r := fst (serve py_repr pd SafetyWorkers rq w) in
  exists (ws : list pyval) (safe viol : Z),
    heap w !! workers pd = Some (PList ws) /\
    resp_at ["data"; "statistics"; "safe_workers"] r = Some (PInt safe) /\
    resp_at ["data"; "statistics"; "violations_today"] r = Some (PInt viol) /\
    (0 <= safe)%Z /\ (0 <= viol)%Z /\
    (safe + viol + count (status_is "Off Duty") ws = 50)%Z /\
    (safe + viol <= 50)%Z.
Proof.
  intros pd w r.
  destruct (run_spec py_repr w0 reqs) as (ws & _ & (Hw & _) & Hws & _).
  fold pd w in Hw.
  pose proof (roster_length _ _ _ Hws) as Hlen.
  change (length (py_range 1 51)) with 50%nat in Hlen.
  assert (Hne : ws <> []) by (intros ->; discriminate).
  pose proof (is_worker_roster_like _ _ _ _ _ Hws) as Hlike.
  pose proof (status_partition _ _ _ _ _ Hws) as Hp. rewrite Hlen in Hp.
  exists ws, (count (status_is "Safe") ws),
         (count (status_in ["PPE Missing"; "Training Required"]) ws).
  split; [exact Hw |]. unfold r.
  rewrite (serve_safety_workers py_repr pd ws rq w Hw Hlike Hne).
  split; [reflexivity |]. split; [reflexivity |].
  pose proof (count_range (status_is "Safe") ws).
  pose proof (count_range (status_in ["PPE Missing"; "Training Required"]) ws).
  pose proof (count_range (status_is "Off Duty") ws).
  repeat split; lia.
Qed.

Lemma same_fraction_eq a b : same_fraction a b = true -> a = b.
Proof.
  destruct a as [n d], b as [n' d']. unfold same_fraction. cbn [Qnum Qden].
  intros H. apply andb_prop in H as [Hn Hd].
  apply Z.eqb_eq in Hn. apply Pos.eqb_eq in Hd. congruence.
Qed.

Lemma percentage_of_fifty_all :
  forallb (fun k => same_fraction (percentage_value k 50) (inject_Z (2 * k)))
          (seqZ 0 51) = true.
Proof. vm_compute. reflexivity. Qed.

Lemma percentage_of_fifty k :
  (0 <= k <= 50)%Z -> percentage_value k 50 = inject_Z (2 * k).
Proof.
  intros Hk. pose proof percentage_of_fifty_all as H.
  rewrite forallb_forall in H. apply same_fraction_eq, H.
  apply list_elem_of_In, elem_of_seqZ. lia.
Qed.

(** X10: over the 50-worker roster the two rates of the worker-safety view
    are whole even numbers: with [ws] the roster of the store, [safe_workers]
    is the number of records of [ws] with status "Safe" and [safety_score]
    exactly twice that number, and [ppe_compliance_rate] is exactly twice the
    number of PPE-compliant records of [ws]; the binary64 division by 50, the
    multiplication by 100 and round(.., 1) lose nothing for any count in
    0..50. *)
Theorem rates_are_even_whole_numbers py_repr w0 reqs rq :
  let pd := plant w0 in
  let w := after py_repr w0 reqs in
  let r := fst (serve py_repr pd SafetyWorkers rq w) in
  exists ws : list pyval,
    heap w !! workers pd = Some (PList ws) /\
    (0 <= count (status_is "Safe") ws <= 50)%Z /\
    (0 <= count ppe_compliant ws <= 50)%Z /\
    resp_at ["data"; "statistics"; "safe_workers"] r
    = Some (PInt (count (status_is "Safe") ws)) /\
    resp_at ["data"; "statistics"; "safety_score"] r
    = Some (PFloat (inject_Z (2 * count (status_is "Safe") ws))) /\
    resp_at ["data"; "statistics"; "ppe_compliance_rate"] r
    = Some (PFloat (inject_Z (2 * count ppe_compliant ws))).
Proof.
  intros pd w r.
  destruct (run_spec py_repr w0 reqs) as (ws & _ & (Hw & _) & Hws & _).
  fold pd w in Hw.
  pose proof (roster_length _ _ _ Hws) as Hlen.
  change (length (py_range 1 51)) with 50%nat in Hlen.
  assert (Hne : ws <> []) by (intros ->; discriminate).
  pose proof (is_worker_roster_like _ _ _ _ _ Hws) as Hlike.
  pose proof (count_range (status_is "Safe") ws) as Hs.
  pose proof (count_range ppe_compliant ws) as Hp.
  rewrite Hlen in Hs, Hp.
  exists ws. split; [exact Hw |]. split; [exact Hs |]. split; [exact Hp |].
  unfold r. rewrite (serve_safety_workers py_repr pd ws rq w Hw Hlike Hne).
  rewrite <- (percentage_of_fifty _ Hs), <- (percentage_of_fifty _ Hp).
  unfold safety_data, safety_statistics. rewrite Hlen.
  repeat split; reflexivity.
Qed.

(** X11: the data of the worker-safety view and the schedules of the
    schedule view do not depend on what was served before: after any two
    sequences of requests to the same process the worker-safety data (records
    and statistics) are equal, and the schedules are the three shift
    records. *)
Theorem read_views_repeatable py_repr w0 reqs1 reqs2 rq1 rq2 :
  let pd := plant w0 in
  let w1 := after py_repr w0 reqs1 in
  let w2 := after py_repr w0 reqs2 in
  (exists data,
     resp_at ["data"] (fst (serve py_repr pd SafetyWorkers rq1 w1)) = Some data /\
     resp_at ["data"] (fst (serve py_repr pd SafetyWorkers rq2 w2)) = Some data) /\
  resp_at ["data"; "schedules"] (fst (serve py_repr pd ScheduleCurrent rq1 w1))
  = Some shift_records /\
  resp_at ["data"; "schedules"] (fst (serve py_repr pd ScheduleCurrent rq2 w2))
  = Some shift_records.
Proof.
  intros pd w1 w2.
  destruct (run_spec py_repr w0 reqs1) as (ws & (Hw0 & _) & (Hw1 & _ & _ & Hs1) & Hws & _).
  destruct (run_spec py_repr w0 reqs2) as (ws' & (Hw0' & _) & (Hw2 & _ & _ & Hs2) & _ & _).
  fold pd w1 in Hw1, Hs1. fold pd w2 in Hw2, Hs2. fold pd in Hw0, Hw0'.
  assert (ws' = ws) as -> by congruence.
  pose proof (roster_length _ _ _ Hws) as Hlen.
  assert (Hne : ws <> []) by (intros ->; discriminate).
  pose proof (is_worker_roster_like _ _ _ _ _ Hws) as Hlike.
  split.
  - exists (safety_data ws).
    rewrite (serve_safety_workers py_repr pd ws rq1 w1 Hw1 Hlike Hne).
    rewrite (serve_safety_workers py_repr pd ws rq2 w2 Hw2 Hlike Hne).
    split; reflexivity.
  - unfold serve. cbn [handle].
    rewrite (get_current_schedule_eq pd _ w1 Hs1), (get_current_schedule_eq pd _ w2 Hs2).
    split; reflexivity.
Qed.

(** X12: the current_shift of the schedule view always names one of the
    three shifts returned next to it. *)
Theorem schedule_names_a_returned_shift py_repr w0 reqs rq :
  let pd := plant w0 in
  let w := after py_repr w0 reqs in
  let r := fst (serve py_repr pd ScheduleCurrent rq w) in
  exists (sch : list pyval) (rec : pyval) (name : string),
    resp_at ["data"; "schedules"] r = Some (PList sch) /\ length sch = 3%nat /\
    resp_at ["data"; "current_shift"] r = Some (PStr name) /\
    rec ∈ sch /\ getitem rec "shift_name" = Ok (PStr name).
Proof.
  intros pd w r.
  destruct (run_spec py_repr w0 reqs) as (ws & _ & (_ & _ & _ & Hs) & _ & _).
  fold pd w in Hs.
  unfold r, serve. cbn [handle]. rewrite (get_current_schedule_eq pd _ w Hs).
  unfold shift_records, current_shift_of.
  destruct ((6 <=? hour (clock w (clock_pos w)))%Z && (hour (clock w (clock_pos w)) <? 14)%Z);
    [| destruct ((14 <=? hour (clock w (clock_pos w)))%Z
                 && (hour (clock w (clock_pos w)) <? 22)%Z)];
    eexists _, _, _; (split; [reflexivity |]); (split; [reflexivity |]);
    (split; [reflexivity |]).
  - split; [apply list_elem_of_here | reflexivity].
  - split; [apply list_elem_of_further, list_elem_of_here | reflexivity].
  - split; [do 2 apply list_elem_of_further; apply list_elem_of_here | reflexivity].
Qed.

(** X13: the schedule view reads the clock three times: current_shift comes
    from the hour of the first reading, current_time is HH:MM of the second,
    the timestamp is the third. The three need not agree: in a process whose
    clock passes from 13:59:59.999999 to 14:00:00 between the first and the
    second reading the view answers 'Morning Shift' at current_time
    '14:00'. *)
Theorem schedule_reads_clock_three_times py_repr w0 reqs rq :
  let pd := plant w0 in
  let w := after py_repr w0 reqs in
  let r := fst (serve py_repr pd ScheduleCurrent rq w) in
  let t0 := clock w (clock_pos w) in
  let t1 := clock w (1 + clock_pos w) in
  let t2 := clock w (2 + clock_pos w) in
  (resp_at ["data"; "current_shift"] r = Some (PStr (shift_by_band (hour t0))) /\
   resp_at ["data"; "current_time"] r
   = Some (PStr (zpad 2 (hour t1) +:+ ":" +:+ zpad 2 (minute t1))) /\
   resp_at ["timestamp"] r = Some (PStr (isoformat t2)) /\
   clock_pos (snd (serve py_repr pd ScheduleCurrent rq w)) = (3 + clock_pos w)%nat) /\
  let rb := fst (serve py_repr (plant boundary_world) ScheduleCurrent rq
                   (after py_repr boundary_world [])) in
  resp_at ["data"; "current_shift"] rb = Some (PStr "Morning Shift") /\
  resp_at ["data"; "current_time"] rb = Some (PStr "14:00").
Proof.
  intros pd w r t0 t1 t2.
  destruct (run_spec py_repr w0 reqs) as (ws & _ & (_ & _ & _ & Hs) & _ & _).
  fold pd w in Hs.
  assert (H : resp_at ["data"; "current_shift"] r = Some (PStr (shift_by_band (hour t0)))).
  { unfold r, serve. cbn [handle]. rewrite (get_current_schedule_eq pd _ w Hs).
    rewrite current_shift_of_band. reflexivity. }
  split; [split; [exact H |] |].
  { unfold r, serve. cbn [handle]. rewrite (get_current_schedule_eq pd _ w Hs).
    repeat split; reflexivity. }
  destruct (boot_spec boundary_world)
    as (_ & ws' & (_ & _ & _ & Hs') & _ & _ & _ & Hck & _ & Hcp & _).
  fold (plant boundary_world) (started boundary_world) in Hs', Hck, Hcp.
  unfold after. cbn [serve_all snd].
  unfold serve. cbn [handle]. rewrite (get_current_schedule_eq _ _ _ Hs').
  rewrite Hck, Hcp. split; vm_compute; reflexivity.
Qed.

(** X14: the chat view accepts a message of any JSON type: whenever the body
    is a JSON object with a message key, it answers 200, echoes the value
    unchanged as user_message, and the ai_response is one of the six
    templates filled with str() of the value, which it contains; a null
    message is answered about 'None'. *)
Theorem chat_formats_any_message py_repr pd rq w d v :
  request_json rq = Ok (PDict d) ->
  dict_get "message" d = Some v ->
  let r := fst (serve py_repr pd AiChat rq w) in
  status_code r = 200%Z /\
  resp_at ["data"; "user_message"] r = Some v /\
  exists resp,
    resp_at ["data"; "ai_response"] r = Some (PStr resp) /\
    resp ∈ ai_responses (py_str py_repr v) /\
    contains resp (py_str py_repr v) = true.
Proof.
  intros H Hm r. unfold r, serve. cbn [handle].
  rewrite (ai_chat_eq py_repr rq d w H). rewrite Hm. cbn [default].
  split; [reflexivity |]. split; [reflexivity |].
  eexists. split; [reflexivity |].
  assert (Hin : nth (Z.to_nat (draw w 0 mod 6)) (ai_responses (py_str py_repr v))
                    (hd "" (ai_responses (py_str py_repr v)))
                ∈ ai_responses (py_str py_repr v)).
  { change 6%Z with (Z.of_nat (length (ai_responses (py_str py_repr v)))).
    unfold ai_responses. cbn [hd]. apply choice_elem. }
  split; [exact Hin | apply ai_responses_contain, Hin].
Qed.

Lemma toordinal_seconds d : toordinal d = (whole_seconds d / 86400)%Z.
Proof.
  unfold toordinal, whole_seconds, us_per_day.
  rewrite Z.div_div by lia. reflexivity.
Qed.

Lemma hour_seconds d : hour d = ((whole_seconds d mod 86400) / 3600)%Z.
Proof.
  unfold hour, whole_seconds, us_per_day, us_per_hour.
  Z.to_euclidean_division_equations. lia.
Qed.

Lemma minute_seconds d : minute d = ((whole_seconds d / 60) mod 60)%Z.
Proof.
  unfold minute, whole_seconds.
  Z.to_euclidean_division_equations. lia.
Qed.

Lemma second_seconds d : second d = (whole_seconds d mod 60)%Z.
Proof. reflexivity. Qed.

(** The text of [strftime('%Y%m%d_%H%M%S')] only depends on the whole
    seconds. *)
Lemma strftime_same_second t1 t2 :
  whole_seconds t1 = whole_seconds t2 -> strftime_Ymd_HMS t1 = strftime_Ymd_HMS t2.
Proof.
  intros H. unfold strftime_Ymd_HMS.
  rewrite !toordinal_seconds, !hour_seconds, !minute_seconds, !second_seconds, H.
  reflexivity.
Qed.

Section ReportFacts.
Import Float64 Float64Facts.
Local Open Scope Q_scope.

Lemma uniform_int_range a b r :
  (a <= b)%Z ->
  of_int a == inject_Z a -> of_int (b - a) == inject_Z (b - a) ->
  fl (inject_Z a) == inject_Z a -> fl (inject_Z b) == inject_Z b ->
  fl (inject_Z (b - a)) == inject_Z (b - a) ->
  inject_Z a <= uniform_int a b r /\ uniform_int a b r <= inject_Z b.
Proof.
  intros Hab Ha Hc Fa Fb Fc. destruct (unit_float_range r) as [H0 H1].
  unfold uniform_int. set (u := unit_float r) in *.
  assert (HC : 0 <= inject_Z (b - a)).
  { change 0 with (inject_Z 0). rewrite <- Zle_Qle. lia. }
  assert (HB : inject_Z b == inject_Z a + inject_Z (b - a)).
  { rewrite <- inject_Z_plus. replace (a + (b - a))%Z with b by lia. reflexivity. }
  assert (Hp0 : 0 <= fl (of_int (b - a) * u)).
  { apply fl_ge_fixed; [reflexivity |]. rewrite Hc. nra. }
  assert (Hp1 : fl (of_int (b - a) * u) <= inject_Z (b - a)).
  { apply fl_le_fixed; [exact Fc |]. rewrite Hc. nra. }
  split.
  - apply fl_ge_fixed; [exact Fa |]. rewrite Ha. lra.
  - apply fl_le_fixed; [exact Fb |]. rewrite Ha, HB. lra.
Qed.

End ReportFacts.

Lemma report_summary py_repr pd rq d w :
  request_json rq = Ok (PDict d) ->
  resp_at ["data"; "summary"] (fst (serve py_repr pd ReportsSafety rq w))
  = Some (PDict [
      ("total_incidents", PInt (0 + draw w 0 mod (3 - 0 + 1)));
      ("ppe_compliance_avg", PFloat (uniform_int 94 98 (raw w 1)));
      ("safety_training_completion", PFloat (uniform_int 95 100 (raw w 2)));
      ("safety_score", PFloat (uniform_int 92 98 (raw w 3)))]).
Proof.
  intros H. unfold serve, handle, generate_safety_report.
  cbv beta iota delta [bind lift now]. rewrite H. reflexivity.
Qed.

(** X15: on a JSON object the report view returns total_incidents in 0..3
    and the floats ppe_compliance_avg in [94, 98],
    safety_training_completion in [95, 100] and safety_score in [92, 98],
    end points included, in every state. *)
Theorem report_summary_ranges py_repr pd rq d w :
  request_json rq = Ok (PDict d) ->
  let r := fst (serve py_repr pd ReportsSafety rq w) in
  exists (n : Z) (p t s : Q),
    resp_at ["data"; "summary"; "total_incidents"] r = Some (PInt n) /\
    resp_at ["data"; "summary"; "ppe_compliance_avg"] r = Some (PFloat p) /\
    resp_at ["data"; "summary"; "safety_training_completion"] r = Some (PFloat t) /\
    resp_at ["data"; "summary"; "safety_score"] r = Some (PFloat s) /\
    (0 <= n <= 3)%Z /\
    (94 <= p /\ p <= 98)%Q /\ (95 <= t /\ t <= 100)%Q /\ (92 <= s /\ s <= 98)%Q.
Proof.
  intros H r. pose proof (report_summary py_repr pd rq d w H) as Hs. fold r in Hs.
  exists (0 + draw w 0 mod (3 - 0 + 1))%Z, (uniform_int 94 98 (raw w 1)),
         (uniform_int 95 100 (raw w 2)), (uniform_int 92 98 (raw w 3)).
  assert (Hf : forall k, resp_at ["data"; "summary"; k] r
                         = resp_at ["data"; "summary"] r ≫= at_path [k]).
  { intros k. unfold resp_at. destruct (resp_json r) as [v |]; [| reflexivity].
    cbn [mbind option_bind at_path]. destruct v; try reflexivity.
    destruct (dict_get "data" d0) as [v |]; [| reflexivity].
    cbn [mbind option_bind at_path]. destruct v; try reflexivity.
    destruct (dict_get "summary" d1) as [v |]; reflexivity. }
  rewrite !Hf, Hs.
  split; [reflexivity |]. split; [reflexivity |]. split; [reflexivity |].
  split; [reflexivity |].
  split; [apply (randint_range 0 3); lia |].
  split; [| split].
  - apply (uniform_int_range 94 98); [lia | reflexivity ..].
  - apply (uniform_int_range 95 100); [lia | reflexivity ..].
  - apply (uniform_int_range 92 98); [lia | reflexivity ..].
Qed.

(** X16: the report id only has the resolution of a second: two report
    requests on JSON objects whose first clock readings fall into the same
    second get the same report_id, 'RPT_' + YYYYmmdd_HHMMSS of that reading,
    and the same download_url, '/api/reports/download/' + report_id,
    whatever their bodies and the rest of the state. *)
Theorem report_id_per_second py_repr pd rq1 rq2 d1 d2 w1 w2 :
  request_json rq1 = Ok (PDict d1) -> request_json rq2 = Ok (PDict d2) ->
  whole_seconds (clock w1 (clock_pos w1)) = whole_seconds (clock w2 (clock_pos w2)) ->
  let r1 := fst (serve py_repr pd ReportsSafety rq1 w1) in
  let r2 := fst (serve py_repr pd ReportsSafety rq2 w2) in
  exists id,
    resp_at ["data"; "report_id"] r1 = Some (PStr id) /\
    resp_at ["data"; "report_id"] r2 = Some (PStr id) /\
    id = "RPT_" +:+ strftime_Ymd_HMS (clock w1 (clock_pos w1)) /\
    resp_at ["download_url"] r1 = Some (PStr ("/api/reports/download/" +:+ id)) /\
    resp_at ["download_url"] r2 = Some (PStr ("/api/reports/download/" +:+ id)).
Proof.
  intros H1 H2 Hs r1 r2. unfold r1, r2, serve. cbn [handle].
  destruct (generate_safety_report_eq rq1 d1 w1 H1) as (s1 & E1).
  destruct (generate_safety_report_eq rq2 d2 w2 H2) as (s2 & E2).
  rewrite E1, E2. rewrite <- (strftime_same_second _ _ Hs).
  eexists. repeat split; reflexivity.
Qed.

(** X17: the emergency stop stops nothing: in a running process it leaves
    the heap and the generator as they are for every request, so the metrics
    view and the worker-safety view return the same data right after it as
    they would have returned instead of it. *)
Theorem emergency_stop_changes_nothing py_repr w0 reqs rq rq' :
  let pd := plant w0 in
  let w := after py_repr w0 reqs in
  let w' := snd (serve py_repr pd EmergencyStop rq w) in
  heap w' = heap w /\ rand_pos w' = rand_pos w /\
  (exists data,
     resp_at ["data"] (fst (serve py_repr pd OperationsMetrics rq' w)) = Some data /\
     resp_at ["data"] (fst (serve py_repr pd OperationsMetrics rq' w')) = Some data) /\
  (exists data,
     resp_at ["data"] (fst (serve py_repr pd SafetyWorkers rq' w)) = Some data /\
     resp_at ["data"] (fst (serve py_repr pd SafetyWorkers rq' w')) = Some data).
Proof.
  intros pd w w'.
  destruct (run_spec py_repr w0 reqs) as (ws & _ & Hst & Hws & _).
  fold pd w in Hst.
  pose proof (roster_length _ _ _ Hws) as Hlen.
  assert (Hne : ws <> []) by (intros ->; discriminate).
  pose proof (is_worker_roster_like _ _ _ _ _ Hws) as Hlike.
  assert (Hro : reads_only (handle py_repr pd EmergencyStop rq))
    by (apply reads_only_handle; discriminate).
  destruct (Hro w) as (Hh & Hr & _). rewrite <- serve_world in Hh, Hr. fold w' in Hh, Hr.
  pose proof (emergency_stop_no_draw py_repr pd rq w) as Hp. fold w' in Hp.
  assert (Hst' : store_at pd ws w').
  { destruct Hst as (H1 & H2 & H3 & H4). unfold store_at. rewrite Hh. auto. }
  split; [exact Hh |]. split; [exact Hp |]. split.
  - exists (metrics_data w).
    destruct (serve_operations_metrics py_repr pd ws rq' w Hst) as (E & _).
    destruct (serve_operations_metrics py_repr pd ws rq' w' Hst') as (E' & _).
    rewrite E, E'. split; [reflexivity |].
    unfold metrics_data, draw, raw. rewrite Hr, Hp. reflexivity.
  - exists (safety_data ws).
    destruct Hst as (Hw & _). destruct Hst' as (Hw' & _).
    rewrite (serve_safety_workers py_repr pd ws rq' w Hw Hlike Hne).
    rewrite (serve_safety_workers py_repr pd ws rq' w' Hw' Hlike Hne).
    split; reflexivity.
Qed.

(** ** The further properties on sample processes *)

(** X1 at the first record of the sample process. *)
Lemma roster_reads_clock_per_record_witness :
  (0 < 50)%nat /\
  exists (ws : list pyval) (v : pyval) (t : datetime) (d : Z),
    heap (after sample_repr sample_world []) !! workers (plant sample_world)
    = Some (PList ws) /\
    ws !! 0%nat = Some v /\
    getitem v "last_safety_training" = Ok (PDatetime t) /\
    (1 <= d <= 90)%Z /\
    toordinal t = (toordinal (clock sample_world 0) - d)%Z /\
    hour t = 9%Z.
Proof.
  assert (H : (0 < 50)%nat) by lia.
  split; [exact H |].
  destruct (roster_reads_clock_per_record sample_repr sample_world [] 0 H)
    as (ws & v & t & d & Hw & Hv & _ & Ht & Hd & _ & Ho & Hh & _).
  exists ws, v, t, d. split; [exact Hw |]. split; [exact Hv |].
  split; [exact Ht |]. split; [exact Hd |]. split; [exact Ho |].
  rewrite Hh. reflexivity.
Defined.

(** X6 at a process whose frontend file cannot be opened. *)
Lemma index_other_errors_witness :
  frontend_index unreadable_world = FileError OSError /\
  OSError <> FileNotFoundError /\
  serve sample_repr (plant sample_world) Index get_request unreadable_world
  = (Response (ErrorPage OSError) 500, unreadable_world).
Proof.
  assert (H1 : frontend_index unreadable_world = FileError OSError) by reflexivity.
  assert (H2 : OSError <> FileNotFoundError) by discriminate.
  split; [exact H1 |]. split; [exact H2 |].
  exact (proj1 (index_other_errors_propagate sample_repr (plant sample_world)
                  get_request unreadable_world OSError H1 H2)).
Defined.

(** X15 at a report request with an empty JSON object. *)
Lemma report_summary_ranges_witness :
  request_json empty_object_request = Ok (PDict []) /\
  exists (n : Z) (p t s : Q),
    resp_at ["data"; "summary"; "total_incidents"]
      (fst (serve sample_repr (plant sample_world) ReportsSafety empty_object_request
              (started sample_world))) = Some (PInt n) /\
    resp_at ["data"; "summary"; "ppe_compliance_avg"]
      (fst (serve sample_repr (plant sample_world) ReportsSafety empty_object_request
              (started sample_world))) = Some (PFloat p) /\
    resp_at ["data"; "summary"; "safety_training_completion"]
      (fst (serve sample_repr (plant sample_world) ReportsSafety empty_object_request
              (started sample_world))) = Some (PFloat t) /\
    resp_at ["data"; "summary"; "safety_score"]
      (fst (serve sample_repr (plant sample_world) ReportsSafety empty_object_request
              (started sample_world))) = Some (PFloat s) /\
    (0 <= n <= 3)%Z /\
    (94 <= p /\ p <= 98)%Q /\ (95 <= t /\ t <= 100)%Q /\ (92 <= s /\ s <= 98)%Q.
Proof.
  split; [reflexivity |].
  exact (report_summary_ranges sample_repr (plant sample_world) empty_object_request
           [] (started sample_world) eq_refl).
Defined.

(** X16 at two report requests in a row, whose clock readings differ but
    fall into the same second. *)
Lemma report_id_per_second_witness :
  let w1 := started sample_world in
  let w2 := snd (serve sample_repr (plant sample_world) ReportsSafety
                   empty_object_request w1) in
  request_json empty_object_request = Ok (PDict []) /\
  whole_seconds (clock w1 (clock_pos w1)) = whole_seconds (clock w2 (clock_pos w2)) /\
  clock w1 (clock_pos w1) <> clock w2 (clock_pos w2) /\
  resp_at ["data"; "report_id"]
    (fst (serve sample_repr (plant sample_world) ReportsSafety empty_object_request w1))
  = resp_at ["data"; "report_id"]
      (fst (serve sample_repr (plant sample_world) ReportsSafety empty_object_request w2)).
Proof.
  intros w1 w2.
  assert (Hs : whole_seconds (clock w1 (clock_pos w1))
               = whole_seconds (clock w2 (clock_pos w2))) by (vm_compute; reflexivity).
  split; [reflexivity |]. split; [exact Hs |].
  split; [vm_compute; discriminate |].
  destruct (report_id_per_second sample_repr (plant sample_world)
              empty_object_request empty_object_request [] [] w1 w2 eq_refl eq_refl Hs)
    as (id & E1 & E2 & _).
  rewrite E1, E2. reflexivity.
Defined.

(** X14 at a chat request whose message is null. *)
Lemma chat_formats_any_message_witness :
  request_json null_message_request = Ok (PDict [("message", PNone)]) /\
  dict_get "message" [("message", PNone)] = Some PNone /\
  resp_at ["data"; "user_message"]
    (fst (serve sample_repr (plant sample_world) AiChat null_message_request
            (started sample_world))) = Some PNone /\
  exists resp,
    resp_at ["data"; "ai_response"]
      (fst (serve sample_repr (plant sample_world) AiChat null_message_request
              (started sample_world))) = Some (PStr resp) /\
    resp ∈ ai_responses "None" /\ contains resp "None" = true.
Proof.
  split; [reflexivity |]. split; [reflexivity |].
  exact (proj2 (chat_formats_any_message sample_repr (plant sample_world)
                  null_message_request (started sample_world)
                  [("message", PNone)] PNone eq_refl eq_refl)).
Defined.

(** X5 at the emergency stop, with a JSON object and without a body. *)
Lemma api_status_characterised_witness :
  EmergencyStop <> Index /\
  status_code (fst (serve sample_repr (plant sample_world) EmergencyStop
                      empty_object_request (after sample_repr sample_world [])))
  = 200%Z /\
  status_code (fst (serve sample_repr (plant sample_world) EmergencyStop
                      get_request (after sample_repr sample_world [])))
  = 415%Z.
Proof.
  assert (H : EmergencyStop <> Index) by discriminate.
  split; [exact H |]. split.
  - rewrite (proj1 (api_status_characterised sample_repr sample_world []
                      EmergencyStop empty_object_request H)).
    reflexivity.
  - rewrite (proj1 (api_status_characterised sample_repr sample_world []
                      EmergencyStop get_request H)).
    reflexivity.
Defined.
